(** * Appointment ledger: slot lookup, booking and cancellation

    A shallow embedding of [utils.py] (the CSV-backed appointment ledger)
    and of the tool methods of [AppointmentAgent] in [booking.py].

    Modelling conventions.
    - A ledger file is modelled after CSV decoding: a table is the list of
      its data rows in file order, each row carrying the five columns of
      [FIELDNAMES] as text.  Tables whose rows all have exactly these five
      cells are the ones considered.  [csv.DictReader] hands every cell
      over as the text stored.  [pandas.read_csv] infers a type for each
      column: a [time] cell comes back as the text stored or, where the
      inference has converted it, as an [int], a [float] or a [bool]
      (type [Label]).
    - The file system is a finite map from paths to tables; an absent key
      is a missing file ([FileNotFoundError] on open).
    - Every function of the program runs in a small state-and-exception
      monad over a [World]: the files plus the trace of observable effects
      (reads, writes, console output, spoken messages).
    - Three routines of the third-party libraries are parameters of the
      ledger: [parse_dayfirst] stands for
      [parser.parse(date, dayfirst=True).strftime("%Y-%m-%d")],
      [to_datetime] for [pd.to_datetime(df['date']).dt.strftime("%Y-%m-%d")]
      and [infer_time] for the type inference of [pd.read_csv] on the
      [time] column.  General theorems hold for every behaviour of the
      three routines; closed examples use the executable models of the
      modules [DateLib] and [CsvLib]. *)

From Stdlib Require Import ZArith Ascii String List Bool Lia.
From stdpp Require Import base option list gmap strings.

Import ListNotations.
Local Open Scope string_scope.
Local Open Scope list_scope.

(** ** Python string methods used by the ledger *)

Module PyStr.

(** [str.lower] on the ASCII range. *)
Definition lower_char (c : ascii) : ascii :=
  let n := nat_of_ascii c in
  if (65 <=? n)%nat && (n <=? 90)%nat then ascii_of_nat (n + 32) else c.

Fixpoint lower (s : string) : string :=
  match s with
  | EmptyString => EmptyString
  | String c tl => String (lower_char c) (lower tl)
  end.

(** [str.isspace] on the ASCII range: tab, line feed, vertical tab, form
    feed, carriage return, the four separators 0x1c-0x1f and the space. *)
Definition is_space (c : ascii) : bool :=
  let n := nat_of_ascii c in
  ((9 <=? n)%nat && (n <=? 13)%nat) || ((28 <=? n)%nat && (n <=? 32)%nat).

Fixpoint lstrip (s : string) : string :=
  match s with
  | EmptyString => EmptyString
  | String c tl => if is_space c then lstrip tl else s
  end.

Fixpoint rev_onto (s acc : string) : string :=
  match s with
  | EmptyString => acc
  | String c tl => rev_onto tl (String c acc)
  end.

Definition reverse (s : string) : string := rev_onto s EmptyString.

Definition rstrip (s : string) : string := reverse (lstrip (reverse s)).

(** [str.strip()] with no argument. *)
Definition strip (s : string) : string := rstrip (lstrip s).

(** [sep.join(parts)]. *)
Fixpoint join (sep : string) (parts : list string) : string :=
  match parts with
  | [] => EmptyString
  | [p] => p
  | p :: tl => p ++ sep ++ join sep tl
  end.

(** An [Optional[str]] field inside an f-string: [None] prints as its
    name. *)
Definition format_optional (x : option string) : string :=
  match x with
  | Some s => s
  | None => "None"
  end.

End PyStr.

(** ** Data model *)

(** One data row of the ledger, as [csv.DictReader] yields it: the dict
    with keys ['date'], ['time'], ['is_booked'], ['purpose'], ['name']. *)
Record Row : Type := mkRow {
  row_date : string;
  row_time : string;
  row_is_booked : string;
  row_purpose : string;
  row_name : string
}.

(** A value of the [time] column that the type inference of
    [pandas.read_csv] has converted, as [tolist()] returns it: an [int], a
    [float] (carried by its [repr], ["nan"] for a missing value) or a
    [bool]. *)
Inductive Scalar : Type :=
| SInt (n : Z)
| SFloat (repr : string)
| SBool (b : bool).

(** A time label as the listing returns it: the text stored in the cell,
    or the scalar the inference has made of it. *)
Inductive Label : Type :=
| LStr (s : string)
| LVal (v : Scalar).

#[global] Instance Scalar_eq_dec : EqDecision Scalar.
Proof. solve_decision. Defined.

#[global] Instance Label_eq_dec : EqDecision Label.
Proof. solve_decision. Defined.

(** [type(v).__name__] *)
Definition py_type_name (v : Scalar) : string :=
  match v with
  | SInt _ => "int"
  | SFloat _ => "float"
  | SBool _ => "bool"
  end.

(** A table: the data rows of a ledger file, in file order. *)
Abbreviation Table := (list Row) (only parsing).

(** Observable effects, in program order. *)
Inductive Event : Type :=
| EvRead (path : string)          (* a ledger file was opened and read *)
| EvWrite (path : string)         (* a ledger file was truncated and rewritten *)
| EvPrint (msg : string)          (* [print] *)
| EvSay (msg : string)            (* [session.say] *)
| EvLogError (msg : string).      (* [logger.error], text before the exception *)

Record World : Type := mkWorld {
  files : gmap string Table;
  trace : list Event
}.

(** Exceptions that leave a ledger operation. *)
Inductive Exn : Type :=
| ValueError (msg : string)       (* raised by the date-parsing guard *)
| ToDatetimeError                 (* raised inside [pd.to_datetime] *)
| JoinTypeError (index : nat) (found : string).
    (* [TypeError] of [str.join]: "sequence item {index}: expected str
       instance, {found} found" *)

(** ** The state-and-exception monad *)

Inductive Outcome (A : Type) : Type :=
| Returns (a : A)
| Raises (e : Exn).
Arguments Returns {A} a.
Arguments Raises {A} e.

Definition M (A : Type) : Type := World -> Outcome A * World.

Definition ret {A} (a : A) : M A := fun w => (Returns a, w).

Definition raise {A} (e : Exn) : M A := fun w => (Raises e, w).

Definition bind {A B} (m : M A) (k : A -> M B) : M B :=
  fun w =>
    match m w with
    | (Returns a, w') => k a w'
    | (Raises e, w') => (Raises e, w')
    end.

(** [try: m except Exception: h] *)
Definition try_except {A} (m : M A) (h : Exn -> M A) : M A :=
  fun w =>
    match m w with
    | (Returns a, w') => (Returns a, w')
    | (Raises e, w') => h e w'
    end.

Declare Scope io_scope.
Delimit Scope io_scope with io.
Notation "x <- m ;; k" := (bind m (fun x => k))
  (at level 100, m at next level, right associativity) : io_scope.
Notation "m ;;; k" := (bind m (fun _ => k))
  (at level 100, right associativity) : io_scope.

Definition emit (e : Event) : M unit :=
  fun w => (Returns tt, mkWorld (files w) (trace w ++ [e])).

(** Opening a ledger file for reading and decoding all of it; [None] is
    [FileNotFoundError]. *)
Definition read_table (path : string) : M (option Table) :=
  fun w =>
    match files w !! path with
    | Some tbl => (Returns (Some tbl), mkWorld (files w) (trace w ++ [EvRead path]))
    | None => (Returns None, w)
    end.

(** [open(path, 'w')], [writeheader], [writerows rows]. *)
Definition write_table (path : string) (rows : Table) : M unit :=
  fun w => (Returns tt, mkWorld (<[path := rows]> (files w)) (trace w ++ [EvWrite path])).

(** [os.path.exists]. *)
Definition path_exists (path : string) : M bool :=
  fun w => (Returns (bool_decide (is_Some (files w !! path))), w).

(** The items of a list handed to [str.join], as far as they are [str]:
    the first item that is not stops the scan with its index and the
    name of its type. *)
Fixpoint texts_from (index : nat) (parts : list Label) : list string + nat * string :=
  match parts with
  | [] => inl []
  | LStr s :: rest =>
      match texts_from (S index) rest with
      | inl texts => inl (s :: texts)
      | inr e => inr e
      end
  | LVal v :: _ => inr (index, py_type_name v)
  end.

(** [sep.join(parts)] on a list whose items need not be [str]. *)
Definition str_join (sep : string) (parts : list Label) : M string :=
  match texts_from 0 parts with
  | inl texts => ret (PyStr.join sep texts)
  | inr (index, found) => raise (JoinTypeError index found)
  end.

(** ** utils.py *)

Module utils.

(** The [for row in reader] loops of [store_appointment] and
    [cancel_appointment]: [visit] is the loop body on one row (the row as
    appended to [rows], and whether the body set [updated]). *)
Fixpoint scan_rows (visit : Row -> Row * bool) (reader : list Row)
    (rows : list Row) (updated : bool) : list Row * bool :=
  match reader with
  | [] => (rows, updated)
  | row :: rest =>
      let '(row', hit) := visit row in
      scan_rows visit rest (rows ++ [row']) (if hit then true else updated)
  end.

(** Loop body of [store_appointment]. *)
Definition book_row (formatted_date time purpose name : string) (row : Row) : Row * bool :=
  if (row_date row =? formatted_date) && (row_time row =? time) then
    if PyStr.lower (row_is_booked row) =? "false" then
      (mkRow (row_date row) (row_time row) "True" purpose name, true)
    else (row, false)
  else (row, false).

(** Loop body of [cancel_appointment]. *)
Definition cancel_row (formatted_date name : string) (row : Row) : Row * bool :=
  if (row_date row =? formatted_date)
     && (PyStr.lower (PyStr.strip (row_name row)) =? PyStr.lower (PyStr.strip name))
     && (PyStr.lower (PyStr.strip (row_is_booked row)) =? "true") then
    (mkRow (row_date row) (row_time row) "False" "" "", true)
  else (row, false).

(** The boolean mask of [get_free_slots] on one row, given the normalised
    value of its date cell ([None] for a missing date). *)
Definition free_on (formatted_date : string) (cell : option string * Row) : bool :=
  match cell.1 with
  | Some d => (d =? formatted_date) && (PyStr.lower (row_is_booked cell.2) =? "false")
  | None => false
  end.

(** [df['time']] as [pd.read_csv] hands it over: cell [i] is the scalar
    that the inference reports for it, or the text stored where it
    reports none. *)
Definition time_column (infer_time : list string -> list (option Scalar))
    (df : list Row) : list Label :=
  imap (fun i row =>
          match infer_time (map row_time df) !! i with
          | Some (Some v) => LVal v
          | _ => LStr (row_time row)
          end) df.

Section Ledger.

(** [parser.parse(date, dayfirst=True).strftime("%Y-%m-%d")];
    [None] when the parser raises [ValueError] or [TypeError]. *)
Variable parse_dayfirst : string -> option string.

(** [pd.to_datetime(column).dt.strftime("%Y-%m-%d")] on the date column
    as read from the file; [None] when it raises, and a [None] cell for a
    missing value. *)
Variable to_datetime : list string -> option (list (option string)).

(** The type inference of [pd.read_csv] on the [time] column as stored:
    for each cell, the scalar it is converted to, or [None] when the cell
    stays text. *)
Variable infer_time : list string -> list (option Scalar).

(** The guard shared by the three operations. *)
Definition format_date (date : string) : M string :=
  match parse_dayfirst date with
  | Some formatted_date => ret formatted_date
  | None => raise (ValueError ("Unable to parse the date: " ++ date))
  end.

Definition get_free_slots (appointment_csv date : string) : M (list Label) :=
  (formatted_date <- format_date date ;;
   df <- read_table appointment_csv ;;
   match df with
   | None =>
       emit (EvPrint ("CSV file not found: " ++ appointment_csv)) ;;;
       ret []
   | Some df =>
       match to_datetime (map row_date df) with
       | None => raise ToDatetimeError
       | Some dates =>
           let times := time_column infer_time df in
           let slots := filter (fun c => free_on formatted_date (c.1, c.2.2) = true)
                               (combine dates (combine times df)) in
           ret (map (fun c => c.2.1) slots)
       end
   end)%io.

Definition store_appointment (appointment_csv date time purpose name : string) : M bool :=
  (formatted_date <- format_date date ;;
   reader <- read_table appointment_csv ;;
   match reader with
   | None =>
       emit (EvPrint ("CSV file not found: " ++ appointment_csv)) ;;;
       ret false
   | Some reader =>
       let '(rows, updated) :=
         scan_rows (book_row formatted_date time purpose name) reader [] false in
       (if updated then write_table appointment_csv rows else ret tt) ;;;
       ret updated
   end)%io.

Definition cancel_appointment (appointment_csv date name : string) : M bool :=
  (formatted_date <- format_date date ;;
   reader <- read_table appointment_csv ;;
   match reader with
   | None =>
       emit (EvPrint ("CSV file not found: " ++ appointment_csv)) ;;;
       ret false
   | Some reader =>
       let '(rows, updated) :=
         scan_rows (cancel_row formatted_date name) reader [] false in
       (if updated then write_table appointment_csv rows else ret tt) ;;;
       ret updated
   end)%io.

End Ledger.

End utils.

(** ** booking.py *)

(** The session fields of [UserData] that the tools read or write (the
    agent registry, the previous agent and the job context are transport
    objects and play no part below). *)
Record UserData : Type := mkUserData {
  appointment_csv : string;
  selected_date : option string;
  selected_time : option string;
  purpose : option string;
  name : option string;
  awaiting_confirmation : bool
}.

(** [UserData()] with the dataclass defaults. *)
Definition default_userdata : UserData :=
  mkUserData "appointments.csv" None None None None false.

(** [userdata.selected_date = date] *)
Definition set_selected_date (userdata : UserData) (date : string) : UserData :=
  mkUserData (appointment_csv userdata) (Some date) (selected_time userdata)
             (purpose userdata) (name userdata) (awaiting_confirmation userdata).

(** A session configured with another ledger path. *)
Definition set_appointment_csv (userdata : UserData) (path : string) : UserData :=
  mkUserData path (selected_date userdata) (selected_time userdata)
             (purpose userdata) (name userdata) (awaiting_confirmation userdata).

(** [userdata.selected_time = time] *)
Definition with_selected_time (userdata : UserData) (time : string) : UserData :=
  mkUserData (appointment_csv userdata) (selected_date userdata) (Some time)
             (purpose userdata) (name userdata) (awaiting_confirmation userdata).

(** [userdata.purpose = purpose] *)
Definition with_purpose (userdata : UserData) (text : string) : UserData :=
  mkUserData (appointment_csv userdata) (selected_date userdata) (selected_time userdata)
             (Some text) (name userdata) (awaiting_confirmation userdata).

(** [userdata.name = name] *)
Definition with_name (userdata : UserData) (text : string) : UserData :=
  mkUserData (appointment_csv userdata) (selected_date userdata) (selected_time userdata)
             (purpose userdata) (Some text) (awaiting_confirmation userdata).

(** [userdata.awaiting_confirmation = True] *)
Definition with_awaiting_confirmation (userdata : UserData) : UserData :=
  mkUserData (appointment_csv userdata) (selected_date userdata) (selected_time userdata)
             (purpose userdata) (name userdata) true.

(** An item of a chat context, with the three attributes the agent reads:
    [id], [type] and, on items of type ["message"], [role]. *)
Record ChatItem : Type := mkChatItem {
  item_id : string;
  item_type : string;
  item_role : string
}.

Module BaseAgent.

(** [item.type in ["function_call", "function_call_output"]] *)
Definition is_call (item : ChatItem) : bool :=
  (item_type item =? "function_call") || (item_type item =? "function_call_output").

(** The local function [_valid_item] of [_truncate_chat_ctx]. *)
Definition _valid_item (keep_system_message keep_function_call : bool)
    (item : ChatItem) : bool :=
  if negb keep_system_message && (item_type item =? "message")
     && (item_role item =? "system") then false
  else if negb keep_function_call && is_call item then false
  else true.

(** The [for item in reversed(items)] loop with its [break]. *)
Fixpoint collect_last (valid : ChatItem -> bool) (keep_last_n_messages : Z)
    (reversed_items new_items : list ChatItem) : list ChatItem :=
  match reversed_items with
  | [] => new_items
  | item :: rest =>
      let new_items := if valid item then new_items ++ [item] else new_items in
      if (keep_last_n_messages <=? Z.of_nat (length new_items))%Z then new_items
      else collect_last valid keep_last_n_messages rest new_items
  end.

(** The [while new_items and new_items[0].type in [...]: new_items.pop(0)]
    loop. *)
Fixpoint drop_leading_calls (new_items : list ChatItem) : list ChatItem :=
  match new_items with
  | [] => []
  | item :: rest => if is_call item then drop_leading_calls rest else new_items
  end.

Definition _truncate_chat_ctx (items : list ChatItem) (keep_last_n_messages : Z)
    (keep_system_message keep_function_call : bool) : list ChatItem :=
  let new_items :=
    collect_last (_valid_item keep_system_message keep_function_call)
                 keep_last_n_messages (reverse items) [] in
  let new_items := reverse new_items in
  drop_leading_calls new_items.

(** The chat items that [on_enter] assembles before it adds its system
    message: the agent's own items, followed by the truncated items of the
    previous agent whose id is not among them.  [prev_agent] holds the
    items of [userdata.prev_agent.chat_ctx] when a previous agent is
    set. *)
Definition on_enter_items (own : list ChatItem) (prev_agent : option (list ChatItem))
    : list ChatItem :=
  match prev_agent with
  | Some prev_items =>
      let items_copy := _truncate_chat_ctx prev_items 6 false true in
      let existing_ids : gset string := list_to_set (map item_id own) in
      let items_copy := filter (fun item => item_id item ∉ existing_ids) items_copy in
      own ++ items_copy
  | None => own
  end.

End BaseAgent.

Module AppointmentAgent.

Section Tools.

Variable parse_dayfirst : string -> option string.
Variable to_datetime : list string -> option (list (option string)).
Variable infer_time : list string -> list (option Scalar).

Definition say (msg : string) : M unit := emit (EvSay msg).
Definition logger_error (msg : string) : M unit := emit (EvLogError msg).

(** A tool returns its value together with the session data as the
    call left them.  [get_available_slots] assigns [selected_date] in its
    first statement, so that the assignment stands also when the tool
    raises further down. *)
Definition get_available_slots (userdata : UserData) (date : string)
    : M (list Label * UserData) :=
  (let userdata := set_selected_date userdata date in
   present <- path_exists (appointment_csv userdata) ;;
   if negb present then
     say "Sorry, the appointment system is currently unavailable." ;;;
     logger_error ("Appointment CSV file not found: " ++ appointment_csv userdata) ;;;
     ret ([], userdata)
   else
     slots <- try_except
                (s <- utils.get_free_slots parse_dayfirst to_datetime infer_time
                        (appointment_csv userdata) date ;;
                 ret (Some s))
                (fun e =>
                   say "Sorry, I encountered an error retrieving slots." ;;;
                   logger_error "Error retrieving free slots: " ;;;
                   ret None) ;;
     match slots with
     | None => ret ([], userdata)
     | Some slots =>
         (match slots with
          | _ :: _ =>
              joined <- str_join ", " slots ;;
              say ("The available slots on " ++ date ++ " are: " ++ joined)
          | [] =>
              say ("Sorry, there are no available slots on " ++ date ++ ".")
          end) ;;;
         ret (slots, userdata)
     end)%io.

Definition select_slot (userdata : UserData) (time : string)
    : M (string * UserData) :=
  (match selected_date userdata with
   | None =>
       say "Please select a date first." ;;;
       ret ("Date not selected", userdata)
   | Some selected =>
       slots <- try_except
                  (s <- utils.get_free_slots parse_dayfirst to_datetime infer_time
                          (appointment_csv userdata) selected ;;
                   ret (Some s))
                  (fun e =>
                     say "Sorry, I couldn't verify available slots." ;;;
                     logger_error "Error verifying slots in select_slot: " ;;;
                     ret None) ;;
       match slots with
       | None => ret ("Error verifying slots", userdata)
       | Some slots =>
           if bool_decide (LStr time ∈ slots) then
             let userdata := with_selected_time userdata time in
             say ("Okay, you've selected " ++ time
                  ++ ". What is the purpose of your visit? (eye, dentist, general etc.)") ;;;
             ret (time, userdata)
           else
             say ("Sorry, " ++ time ++ " is not an available slot on " ++ selected
                  ++ ". Please choose a valid time.") ;;;
             ret ("Invalid slot selected", userdata)
       end
   end)%io.

Definition set_purpose (userdata : UserData) (purpose : string)
    : M (string * UserData) :=
  (let userdata := with_purpose userdata purpose in
   say "Got it. What's your name?" ;;;
   ret (purpose, userdata))%io.

Definition set_name_and_confirm (userdata : UserData) (name : string)
    : M (string * UserData) :=
  (let userdata := with_name userdata name in
   let confirm_msg :=
     ("Confirming your appointment on " ++ PyStr.format_optional (selected_date userdata)
      ++ " at " ++ PyStr.format_optional (selected_time userdata)
      ++ " for " ++ PyStr.format_optional (purpose userdata)
      ++ " with name " ++ name ++ ". Shall I book it? (yes/no)")%string in
   let userdata := with_awaiting_confirmation userdata in
   say confirm_msg ;;;
   ret (confirm_msg, userdata))%io.

Definition appointment_saved (userdata : UserData) (date time purpose name : string)
    : M (string * UserData) :=
  (saved <- utils.store_appointment parse_dayfirst
              (appointment_csv userdata) date time purpose name ;;
   let status_msg :=
     if saved then "The appointment has been saved."
     else "There was an error saving the appointment." in
   say status_msg ;;;
   ret (status_msg, userdata))%io.

Definition cancel_appointment (userdata : UserData) (name date : string)
    : M (string * UserData) :=
  (let appointment_csv := "appointments.csv" in
   success <- utils.cancel_appointment parse_dayfirst appointment_csv date name ;;
   let msg :=
     if success then "Your appointment has been canceled."
     else "Could not find an appointment to cancel." in
   say msg ;;;
   ret (msg, userdata))%io.

End Tools.

End AppointmentAgent.

(** ** An executable model of the two date routines

    The model covers purely numeric dates written as three dash-separated
    fields, one of them a four-digit year in first or last position and
    the other two of one or two digits, for years 1678 to 2261 (inside
    the range of a pandas timestamp).  It follows the field-resolution
    rules of [dateutil]'s [_ymd.resolve_ymd] and, for the column routine,
    the format inference of pandas 2 (the format guessed on the first
    non-missing cell is applied to the whole column).  Text outside this
    fragment is rejected by the model; the closed examples below use
    dates inside it, and one text that is no date at all. *)

Module DateLib.

Definition digit (c : ascii) : option nat :=
  let n := nat_of_ascii c in
  if (48 <=? n)%nat && (n <=? 57)%nat then Some (n - 48)%nat else None.

Fixpoint number_from (acc : nat) (s : string) : option nat :=
  match s with
  | EmptyString => Some acc
  | String c tl =>
      match digit c with
      | Some d => number_from (10 * acc + d) tl
      | None => None
      end
  end.

(** A non-empty string of decimal digits. *)
Definition number (s : string) : option nat :=
  match s with
  | EmptyString => None
  | _ => number_from 0 s
  end.

(** [s.split('-')]: [cur] is the field being read, reversed. *)
Fixpoint split_dash (s : string) (cur : string) : list string :=
  match s with
  | EmptyString => [PyStr.reverse cur]
  | String c tl =>
      if Ascii.eqb c "-"%char then PyStr.reverse cur :: split_dash tl EmptyString
      else split_dash tl (String c cur)
  end.

Definition is_leap (y : nat) : bool :=
  ((y mod 4 =? 0) && negb (y mod 100 =? 0) || (y mod 400 =? 0))%nat.

Definition days_in_month (y m : nat) : nat :=
  match m with
  | 1 | 3 | 5 | 7 | 8 | 10 | 12 => 31
  | 4 | 6 | 9 | 11 => 30
  | 2 => if is_leap y then 29 else 28
  | _ => 0
  end.

(** A calendar date [(year, month, day)]. *)
Definition valid_date (ymd : nat * nat * nat) : bool :=
  let '(y, m, d) := ymd in
  ((1678 <=? y) && (y <=? 2261) && (1 <=? m) && (m <=? 12)
   && (1 <=? d) && (d <=? days_in_month y m))%nat.

Definition digit_char (n : nat) : ascii := ascii_of_nat (48 + n mod 10).

Definition pad2 (n : nat) : string :=
  String (digit_char (n / 10)) (String (digit_char n) EmptyString).

Definition pad4 (n : nat) : string :=
  String (digit_char (n / 1000)) (String (digit_char (n / 100)) (pad2 n)).

(** [strftime("%Y-%m-%d")]. *)
Definition strftime (ymd : nat * nat * nat) : string :=
  let '(y, m, d) := ymd in pad4 y ++ "-" ++ pad2 m ++ "-" ++ pad2 d.

(** Where the four-digit year stands among the three fields. *)
Inductive YearPos : Type := YearFirst | YearLast.

(** The three numeric members of a date text and the position of the
    year: the year has four digits, the two other members one or two. *)
Definition members (s : string) : option (YearPos * nat * nat * nat) :=
  match split_dash s EmptyString with
  | [f0; f1; f2] =>
      match number f0, number f1, number f2 with
      | Some a, Some b, Some c =>
          let short f := (String.length f <=? 2)%nat in
          if (String.length f0 =? 4)%nat && short f1 && short f2
          then Some (YearFirst, a, b, c)
          else if short f0 && short f1 && (String.length f2 =? 4)%nat
          then Some (YearLast, a, b, c)
          else None
      | _, _, _ => None
      end
  | _ => None
  end.

(** [_ymd.resolve_ymd(yearfirst=False, dayfirst)] on three members with
    the year labelled: the result is [(year, month, day)]. *)
Definition resolve_ymd (dayfirst : bool) (pos : YearPos) (a b c : nat)
    : nat * nat * nat :=
  match pos with
  | YearFirst =>
      if dayfirst && (c <=? 12)%nat then (a, c, b) else (a, b, c)
  | YearLast =>
      if (31 <? a)%nat then (a, b, c)
      else if (12 <? a)%nat || (dayfirst && (b <=? 12)%nat) then (c, b, a)
      else (c, a, b)
  end.

(** [dateutil.parser.parse(s, dayfirst=dayfirst)], date part. *)
Definition dateutil_parse (dayfirst : bool) (s : string) : option (nat * nat * nat) :=
  match members s with
  | Some (pos, a, b, c) =>
      let ymd := resolve_ymd dayfirst pos a b c in
      if valid_date ymd then Some ymd else None
  | None => None
  end.

(** The instance of [parse_dayfirst]. *)
Definition parse_dayfirst (date : string) : option string :=
  strftime <$> dateutil_parse true date.

(** The formats pandas can infer on the fragment. *)
Inductive Format : Type :=
| Ymd      (* "%Y-%m-%d" *)
| dmY      (* "%d-%m-%Y" *)
| mdY.     (* "%m-%d-%Y" *)

(** [guess_datetime_format(s, dayfirst=False)]: the text is parsed by
    [dateutil] without day-first and each field is given the directive
    whose rendering it equals. *)
Definition guess_datetime_format (s : string) : option Format :=
  match members s, dateutil_parse false s with
  | Some (YearFirst, _, _, _), Some _ => Some Ymd
  | Some (YearLast, a, _, _), Some (_, m, _) =>
      if (a =? m)%nat then Some mdY else Some dmY
  | _, _ => None
  end.

(** Parsing one cell with an explicit format, exact match. *)
Definition strptime (fmt : Format) (s : string) : option (nat * nat * nat) :=
  match members s, fmt with
  | Some (YearFirst, y, m, d), Ymd
  | Some (YearLast, d, m, y), dmY
  | Some (YearLast, m, d, y), mdY =>
      if valid_date (y, m, d) then Some (y, m, d) else None
  | _, _ => None
  end.

(** The instance of [to_datetime]: an empty cell is a missing value. *)
Definition to_datetime (column : list string) : option (list (option string)) :=
  match filter (fun cell => cell ≠ EmptyString) column with
  | [] => Some (map (fun _ => None) column)
  | first :: _ =>
      match guess_datetime_format first with
      | Some fmt =>
          mapM (fun cell =>
                  if decide (cell = EmptyString) then Some None
                  else (fun ymd => Some (strftime ymd)) <$> strptime fmt cell)
               column
      | None => None
      end
  end.

End DateLib.

(** ** An executable model of the type inference on the [time] column

    The model covers two kinds of column.  A column whose cells are all
    strings of one to eighteen decimal digits is read as [int64]: every
    cell comes back as the integer it denotes.  A column whose cells all
    hold a colon, as clock labels do, is no number, no boolean and no
    missing-value marker anywhere, and every cell comes back as the text
    stored.  On any other column the model reports no conversion; the
    closed examples use columns of the two kinds only. *)

Module CsvLib.

Definition is_digits (cell : string) : bool :=
  match DateLib.number cell with
  | Some _ => (String.length cell <=? 18)%nat
  | None => false
  end.

Definition to_int (cell : string) : option Scalar :=
  match DateLib.number cell with
  | Some n => Some (SInt (Z.of_nat n))
  | None => None
  end.

(** The instance of [infer_time]. *)
Definition infer_time (column : list string) : list (option Scalar) :=
  if forallb is_digits column then map to_int column
  else map (fun _ => None) column.

End CsvLib.

(** ** Vocabulary of the properties *)

(** The filter of [store_appointment]: the rows a booking updates. *)
Definition book_match (formatted_date time : string) (row : Row) : Prop :=
  row_date row = formatted_date ∧ row_time row = time
  ∧ PyStr.lower (row_is_booked row) = "false".

(** The filter of [cancel_appointment]: the rows a cancellation updates. *)
Definition cancel_match (formatted_date name : string) (row : Row) : Prop :=
  row_date row = formatted_date
  ∧ PyStr.lower (PyStr.strip (row_name row)) = PyStr.lower (PyStr.strip name)
  ∧ PyStr.lower (PyStr.strip (row_is_booked row)) = "true".

(** A row whose [is_booked] cell reads false, whatever its case. *)
Definition free_row (row : Row) : Prop :=
  PyStr.lower (row_is_booked row) = "false".

(** Two tables with the same number of rows and the same [date] and
    [time] columns in the same order, whose rows are equal position by
    position outside the [touched] rows. *)
Definition same_structure (touched : Row → Prop) (before after : Table) : Prop :=
  length after = length before
  ∧ map row_date after = map row_date before
  ∧ map row_time after = map row_time before
  ∧ Forall2 (fun r r' => ¬ touched r → r' = r) before after.

(** The same for every file: none appears, none disappears. *)
Definition files_same_structure (touched : Row → Prop)
    (before after : gmap string Table) : Prop :=
  ∀ path, option_Forall2 (same_structure touched) (before !! path) (after !! path).

(** Every row that the column normalisation places on [formatted_date]
    stores that very text in its [date] cell. *)
Definition canonical_for (formatted_date : string) (tbl : Table)
    (dates : list (option string)) : Prop :=
  Forall2 (fun row d => d = Some formatted_date → row_date row = formatted_date)
          tbl dates.

(** A successful booking of [time] on [date] removes [time] from the free
    slots listed for [date], on every ledger. *)
Definition booked_slot_not_listed
    (parse_dayfirst : string → option string)
    (to_datetime : list string → option (list (option string)))
    (infer_time : list string → list (option Scalar)) : Prop :=
  ∀ (w w1 : World) (csv date time purpose name : string),
    is_Some (parse_dayfirst date) →
    utils.store_appointment parse_dayfirst csv date time purpose name w
      = (Returns true, w1) →
    ∀ slots,
      (utils.get_free_slots parse_dayfirst to_datetime infer_time csv date w1).1
        = Returns slots →
      LStr time ∉ slots.

(** The events a call appended to the trace touch only [path]. *)
Definition only_touches (path : string) (events : list Event) : Prop :=
  Forall (fun e => match e with
                   | EvRead p | EvWrite p => p = path
                   | _ => True
                   end) events.

(** The outcome of a tool with the session data projected away. *)
Definition tool_value {A} (r : Outcome (A * UserData)) : Outcome A :=
  match r with
  | Returns (a, _) => Returns a
  | Raises e => Raises e
  end.

(** ** Sample ledgers *)

(** A world holding one ledger, with an empty trace. *)
Definition ledger_at (path : string) (tbl : Table) : World :=
  mkWorld {[ path := tbl ]} [].

(** A world without any ledger file. *)
Definition no_ledger : World := mkWorld ∅ [].

(** The ledger of the worked scenario: one free slot. *)
Definition one_free_slot : Table :=
  [mkRow "2025-05-30" "10:00" "False" "" ""].

(** The same day stored twice, once zero-padded and once not. *)
Definition two_spellings : Table :=
  [mkRow "2025-05-30" "10:00" "False" "" "";
   mkRow "2025-5-30" "10:00" "False" "" ""].

(** A slot stored under a numeric date that reads both as 5 June and as
    6 May. *)
Definition ambiguous_day : Table :=
  [mkRow "05-06-2025" "10:00" "False" "" ""].

(** A booked slot next to a free one on the same day. *)
Definition booked_and_free : Table :=
  [mkRow "2025-05-30" "10:00" "True" "dentist" "Alice";
   mkRow "2025-05-30" "11:00" "False" "" ""].

(** ** Sessions *)

(** The events contain no rewrite of a file. *)
Definition no_write (events : list Event) : Prop :=
  Forall (fun e => match e with EvWrite _ => False | _ => True end) events.

(** The outcome of a ledger mutation at [csv], seen from outside: either
    it returned true after rewriting [csv] and nothing else, or it did
    not return true and no file changed and nothing was written. *)
Definition wrote_iff_true (csv : string) (w : World) (run : Outcome bool * World)
    : Prop :=
  (run.1 = Returns true
   ∧ (∃ tbl', files run.2 = <[csv := tbl']> (files w))
   ∧ trace run.2 = trace w ++ [EvRead csv; EvWrite csv])
  ∨ (run.1 ≠ Returns true
     ∧ files run.2 = files w
     ∧ ∃ events, trace run.2 = trace w ++ events
                 ∧ no_write events ∧ only_touches csv events).

(** The session state a tool call leaves: the data the tool returned or,
    when it raised, the data as it had assigned them until then
    ([on_raise]); and the world in both cases. *)
Definition session_after {A} (run : M (A * UserData)) (on_raise : UserData) (w : World)
    : UserData * World :=
  match run w with
  | (Returns (_, userdata'), w') => (userdata', w')
  | (Raises _, w') => (on_raise, w')
  end.

(** The six function tools of [AppointmentAgent] with their arguments. *)
Inductive ToolCall : Type :=
| GetAvailableSlots (date : string)
| SelectSlot (time : string)
| SetPurpose (purpose : string)
| SetNameAndConfirm (name : string)
| AppointmentSaved (date time purpose name : string)
| CancelAppointment (name date : string).

(** One tool call on the session state.  Of the tools that can raise,
    [get_available_slots] has assigned [selected_date] before; the others
    assign nothing. *)
Definition tool_step
    (parse_dayfirst : string → option string)
    (to_datetime : list string → option (list (option string)))
    (infer_time : list string → list (option Scalar))
    (call : ToolCall) (s : UserData * World) : UserData * World :=
  match call with
  | GetAvailableSlots date =>
      session_after (AppointmentAgent.get_available_slots parse_dayfirst to_datetime
                       infer_time s.1 date)
                    (set_selected_date s.1 date) s.2
  | SelectSlot time =>
      session_after (AppointmentAgent.select_slot parse_dayfirst to_datetime
                       infer_time s.1 time)
                    s.1 s.2
  | SetPurpose purpose =>
      session_after (AppointmentAgent.set_purpose s.1 purpose) s.1 s.2
  | SetNameAndConfirm name =>
      session_after (AppointmentAgent.set_name_and_confirm s.1 name) s.1 s.2
  | AppointmentSaved date time purpose name =>
      session_after (AppointmentAgent.appointment_saved parse_dayfirst s.1
                       date time purpose name) s.1 s.2
  | CancelAppointment name date =>
      session_after (AppointmentAgent.cancel_appointment parse_dayfirst s.1 name date)
                    s.1 s.2
  end.

(** A conversation: the tool calls the language model makes, in order. *)
Definition run_session
    (parse_dayfirst : string → option string)
    (to_datetime : list string → option (list (option string)))
    (infer_time : list string → list (option Scalar))
    (calls : list ToolCall) (s : UserData * World) : UserData * World :=
  fold_left (fun s call => tool_step parse_dayfirst to_datetime infer_time call s) calls s.

(** The last [n] elements of a list. *)
Definition last_n {A} (n : nat) (l : list A) : list A := drop (length l - n) l.

(** ** Sample chat items *)

Definition user_message (id : string) : ChatItem := mkChatItem id "message" "user".
Definition system_message (id : string) : ChatItem := mkChatItem id "message" "system".
Definition function_call (id : string) : ChatItem := mkChatItem id "function_call" "".
Definition function_call_output (id : string) : ChatItem :=
  mkChatItem id "function_call_output" "".

(** Two slots of the same day and time stored twice, and one of another
    person. *)
Definition duplicate_slots : Table :=
  [mkRow "2025-05-30" "10:00" "False" "" "";
   mkRow "2025-05-30" "10:00" "false" "" "";
   mkRow "2025-05-30" "11:00" "True" "eye" "Bob"].

(** A row stored under the requested day is normalised to it, and only
    such a row is. *)
Definition faithful_for (formatted_date : string) (tbl : Table)
    (dates : list (option string)) : Prop :=
  Forall2 (fun row d => d = Some formatted_date ↔ row_date row = formatted_date)
          tbl dates.

(** A row stored under the requested day is normalised to it. *)
Definition recognised_for (formatted_date : string) (tbl : Table)
    (dates : list (option string)) : Prop :=
  Forall2 (fun row d => row_date row = formatted_date → d = Some formatted_date)
          tbl dates.

(** A free slot whose time label is written with digits only. *)
Definition numeric_label : Table :=
  [mkRow "2025-05-30" "1000" "False" "" ""].

(** Two ledgers with the same content: the default one and the one of a
    session configured elsewhere. *)
Definition two_ledgers : World :=
  mkWorld {[ "appointments.csv" := booked_and_free; "clinic.csv" := booked_and_free ]} [].

(** ** The monad and the row loops *)

Lemma scan_rows_spec (visit : Row → Row * bool) (reader rows : list Row) (updated : bool) :
  utils.scan_rows visit reader rows updated
  = (rows ++ map (fun r => (visit r).1) reader,
     updated || existsb (fun r => (visit r).2) reader).
Proof.
  revert rows updated.
  induction reader as [|row rest IH]; intros rows updated; simpl.
  - by rewrite app_nil_r, orb_false_r.
  - destruct (visit row) as [row' hit] eqn:Hv; simpl.
    rewrite IH, <- app_assoc; simpl.
    f_equal. destruct hit, updated; simpl; done.
Qed.

Section LedgerFacts.

Variable parse_dayfirst : string → option string.
Variable to_datetime : list string → option (list (option string)).
Variable infer_time : list string → list (option Scalar).

Lemma format_date_ok date formatted_date w :
  parse_dayfirst date = Some formatted_date →
  utils.format_date parse_dayfirst date w = (Returns formatted_date, w).
Proof. intros H. unfold utils.format_date. by rewrite H. Qed.

Lemma format_date_fails date w :
  parse_dayfirst date = None →
  utils.format_date parse_dayfirst date w
  = (Raises (ValueError ("Unable to parse the date: " ++ date)), w).
Proof. intros H. unfold utils.format_date. by rewrite H. Qed.

(** What [store_appointment] does on a present ledger. *)
Lemma store_appointment_run csv date time purpose name formatted_date tbl w :
  parse_dayfirst date = Some formatted_date →
  files w !! csv = Some tbl →
  utils.store_appointment parse_dayfirst csv date time purpose name w
  = if existsb (fun r => (utils.book_row formatted_date time purpose name r).2) tbl
    then (Returns true,
          mkWorld (<[csv := map (fun r => (utils.book_row formatted_date time purpose name r).1) tbl]>
                     (files w))
                  ((trace w ++ [EvRead csv]) ++ [EvWrite csv]))
    else (Returns false, mkWorld (files w) (trace w ++ [EvRead csv])).
Proof.
  intros Hp Hf.
  unfold utils.store_appointment, bind.
  rewrite (format_date_ok _ _ _ Hp).
  unfold read_table. rewrite Hf.
  rewrite scan_rows_spec; simpl.
  by destruct (existsb _ tbl).
Qed.

(** What [cancel_appointment] does on a present ledger. *)
Lemma cancel_appointment_run csv date name formatted_date tbl w :
  parse_dayfirst date = Some formatted_date →
  files w !! csv = Some tbl →
  utils.cancel_appointment parse_dayfirst csv date name w
  = if existsb (fun r => (utils.cancel_row formatted_date name r).2) tbl
    then (Returns true,
          mkWorld (<[csv := map (fun r => (utils.cancel_row formatted_date name r).1) tbl]>
                     (files w))
                  ((trace w ++ [EvRead csv]) ++ [EvWrite csv]))
    else (Returns false, mkWorld (files w) (trace w ++ [EvRead csv])).
Proof.
  intros Hp Hf.
  unfold utils.cancel_appointment, bind.
  rewrite (format_date_ok _ _ _ Hp).
  unfold read_table. rewrite Hf.
  rewrite scan_rows_spec; simpl.
  by destruct (existsb _ tbl).
Qed.

(** The three operations on a missing ledger. *)
Lemma store_appointment_missing csv date time purpose name formatted_date w :
  parse_dayfirst date = Some formatted_date →
  files w !! csv = None →
  utils.store_appointment parse_dayfirst csv date time purpose name w
  = (Returns false,
     mkWorld (files w) (trace w ++ [EvPrint ("CSV file not found: " ++ csv)])).
Proof.
  intros Hp Hf. unfold utils.store_appointment, bind.
  rewrite (format_date_ok _ _ _ Hp). unfold read_table. by rewrite Hf.
Qed.

Lemma cancel_appointment_missing csv date name formatted_date w :
  parse_dayfirst date = Some formatted_date →
  files w !! csv = None →
  utils.cancel_appointment parse_dayfirst csv date name w
  = (Returns false,
     mkWorld (files w) (trace w ++ [EvPrint ("CSV file not found: " ++ csv)])).
Proof.
  intros Hp Hf. unfold utils.cancel_appointment, bind.
  rewrite (format_date_ok _ _ _ Hp). unfold read_table. by rewrite Hf.
Qed.

Lemma get_free_slots_missing csv date formatted_date w :
  parse_dayfirst date = Some formatted_date →
  files w !! csv = None →
  utils.get_free_slots parse_dayfirst to_datetime infer_time csv date w
  = (Returns [],
     mkWorld (files w) (trace w ++ [EvPrint ("CSV file not found: " ++ csv)])).
Proof.
  intros Hp Hf. unfold utils.get_free_slots, bind.
  rewrite (format_date_ok _ _ _ Hp). unfold read_table. by rewrite Hf.
Qed.

(** What [get_free_slots] does on a present ledger. *)
Lemma get_free_slots_run csv date formatted_date tbl w :
  parse_dayfirst date = Some formatted_date →
  files w !! csv = Some tbl →
  utils.get_free_slots parse_dayfirst to_datetime infer_time csv date w
  = match to_datetime (map row_date tbl) with
    | Some dates =>
        (Returns (map (fun c : option string * (Label * Row) => c.2.1)
                      (filter (fun c => utils.free_on formatted_date (c.1, c.2.2) = true)
                              (combine dates
                                 (combine (utils.time_column infer_time tbl) tbl)))),
         mkWorld (files w) (trace w ++ [EvRead csv]))
    | None => (Raises ToDatetimeError, mkWorld (files w) (trace w ++ [EvRead csv]))
    end.
Proof.
  intros Hp Hf. unfold utils.get_free_slots, bind.
  rewrite (format_date_ok _ _ _ Hp). unfold read_table. rewrite Hf.
  by destruct (to_datetime _).
Qed.

(** The three operations on a date that does not parse. *)
Lemma get_free_slots_unparsed csv date w :
  parse_dayfirst date = None →
  utils.get_free_slots parse_dayfirst to_datetime infer_time csv date w
  = (Raises (ValueError ("Unable to parse the date: " ++ date)), w).
Proof.
  intros Hp. unfold utils.get_free_slots, bind.
  by rewrite (format_date_fails _ _ Hp).
Qed.

Lemma store_appointment_unparsed csv date time purpose name w :
  parse_dayfirst date = None →
  utils.store_appointment parse_dayfirst csv date time purpose name w
  = (Raises (ValueError ("Unable to parse the date: " ++ date)), w).
Proof.
  intros Hp. unfold utils.store_appointment, bind.
  by rewrite (format_date_fails _ _ Hp).
Qed.

Lemma cancel_appointment_unparsed csv date name w :
  parse_dayfirst date = None →
  utils.cancel_appointment parse_dayfirst csv date name w
  = (Raises (ValueError ("Unable to parse the date: " ++ date)), w).
Proof.
  intros Hp. unfold utils.cancel_appointment, bind.
  by rewrite (format_date_fails _ _ Hp).
Qed.

End LedgerFacts.

(** ** Missing ledger, unparseable date, booking without a free row *)

(** No row of the table passes the booking filter. *)
Lemma existsb_book_row_false formatted_date time purpose name (tbl : list Row) :
  Forall (fun row => ¬ book_match formatted_date time row) tbl →
  existsb (fun r => (utils.book_row formatted_date time purpose name r).2) tbl = false.
Proof.
  intros Hno. apply not_true_is_false. intros Hex.
  apply existsb_exists in Hex as (row & Hin & Hhit).
  apply list_elem_of_In in Hin.
  apply (proj1 (Forall_forall _ _) Hno row Hin).
  unfold utils.book_row in Hhit. unfold book_match.
  destruct (row_date row =? formatted_date) eqn:Hd; [|done].
  destruct (row_time row =? time) eqn:Ht; [|done].
  destruct (PyStr.lower (row_is_booked row) =? "false") eqn:Hb; [|done].
  by apply String.eqb_eq in Hd, Ht, Hb.
Qed.

(** C3. When the date parses and no row of the ledger has the canonical
    date, the requested time and a false [is_booked] cell,
    [store_appointment] returns false, every file is exactly as before and
    the only effect is the read of the ledger: nothing is written. *)
Theorem book_without_free_row_writes_nothing
    (parse_dayfirst : string → option string)
    (csv date time purpose name formatted_date : string) (tbl : Table) (w : World) :
  parse_dayfirst date = Some formatted_date →
  files w !! csv = Some tbl →
  Forall (fun row => ¬ book_match formatted_date time row) tbl →
  utils.store_appointment parse_dayfirst csv date time purpose name w
  = (Returns false, mkWorld (files w) (trace w ++ [EvRead csv])).
Proof.
  intros Hp Hf Hno.
  rewrite (store_appointment_run _ _ _ _ _ _ _ _ _ Hp Hf).
  by rewrite existsb_book_row_false.
Qed.

(** C4. With a parseable date and no ledger file at the path,
    [get_free_slots] returns the empty list and [store_appointment] and
    [cancel_appointment] return false; none of the three raises, and no
    file is created. *)
Theorem missing_ledger_degrades_gracefully
    (parse_dayfirst : string → option string)
    (to_datetime : list string → option (list (option string)))
    (infer_time : list string → list (option Scalar))
    (csv date time purpose name formatted_date : string) (w : World) :
  parse_dayfirst date = Some formatted_date →
  files w !! csv = None →
  let report := mkWorld (files w) (trace w ++ [EvPrint ("CSV file not found: " ++ csv)]) in
  utils.get_free_slots parse_dayfirst to_datetime infer_time csv date w = (Returns [], report)
  ∧ utils.store_appointment parse_dayfirst csv date time purpose name w
    = (Returns false, report)
  ∧ utils.cancel_appointment parse_dayfirst csv date name w = (Returns false, report).
Proof.
  intros Hp Hf; simpl. split_and!.
  - by eapply get_free_slots_missing.
  - by eapply store_appointment_missing.
  - by eapply cancel_appointment_missing.
Qed.

(** C8. When the date cannot be parsed, each of the three operations
    raises the [ValueError] of the parsing guard and the world is left
    untouched: same files, same trace, so no ledger was read or written. *)
Theorem unparseable_date_fails_fast
    (parse_dayfirst : string → option string)
    (to_datetime : list string → option (list (option string)))
    (infer_time : list string → list (option Scalar))
    (csv date time purpose name : string) (w : World) :
  parse_dayfirst date = None →
  let error := ValueError ("Unable to parse the date: " ++ date) in
  utils.get_free_slots parse_dayfirst to_datetime infer_time csv date w = (Raises error, w)
  ∧ utils.store_appointment parse_dayfirst csv date time purpose name w = (Raises error, w)
  ∧ utils.cancel_appointment parse_dayfirst csv date name w = (Raises error, w).
Proof.
  intros Hp; simpl. split_and!.
  - by apply get_free_slots_unparsed.
  - by apply store_appointment_unparsed.
  - by apply cancel_appointment_unparsed.
Qed.

(** ** Cancelling twice *)

(** A row that a cancellation has visited no longer passes its filter. *)
Lemma cancel_row_settles formatted_date name (row : Row) :
  (utils.cancel_row formatted_date name (utils.cancel_row formatted_date name row).1).2
  = false.
Proof.
  unfold utils.cancel_row at 2.
  destruct (_ && _) eqn:Hhit; simpl.
  - unfold utils.cancel_row; simpl.
    replace (PyStr.lower (PyStr.strip "False") =? "true") with false by reflexivity.
    by rewrite andb_false_r.
  - unfold utils.cancel_row. by rewrite Hhit.
Qed.

Lemma existsb_after_cancel formatted_date name (tbl : list Row) :
  existsb (fun r => (utils.cancel_row formatted_date name r).2)
          (map (fun r => (utils.cancel_row formatted_date name r).1) tbl) = false.
Proof.
  induction tbl as [|row rest IH]; simpl; [done|].
  by rewrite cancel_row_settles, IH.
Qed.

(** C5. For a parseable date, a second [cancel_appointment] with the same
    arguments, run on the world the first call left, returns false. *)
Theorem cancel_twice_second_returns_false
    (parse_dayfirst : string → option string)
    (csv date name formatted_date : string) (w : World) :
  parse_dayfirst date = Some formatted_date →
  let w1 := (utils.cancel_appointment parse_dayfirst csv date name w).2 in
  (utils.cancel_appointment parse_dayfirst csv date name w1).1 = Returns false.
Proof.
  intros Hp; simpl.
  destruct (files w !! csv) as [tbl|] eqn:Hf.
  - rewrite (cancel_appointment_run _ _ _ _ _ _ _ Hp Hf).
    destruct (existsb _ tbl) eqn:Hhit; simpl.
    + erewrite cancel_appointment_run; [|done|by simpl; apply lookup_insert_eq].
      by rewrite existsb_after_cancel.
    + erewrite cancel_appointment_run; [|done|by simpl].
      by rewrite Hhit.
  - rewrite (cancel_appointment_missing _ _ _ _ _ _ Hp Hf); simpl.
    by erewrite cancel_appointment_missing.
Qed.

(** ** The shape of the ledger is preserved *)

Lemma same_structure_refl (touched : Row → Prop) (tbl : list Row) :
  same_structure touched tbl tbl.
Proof.
  unfold same_structure. split_and!; try done.
  induction tbl; constructor; auto.
Qed.

(** A row loop whose body keeps [date] and [time] and leaves untouched
    rows alone keeps the structure of the table. *)
Lemma same_structure_visit (touched : Row → Prop) (visit : Row → Row * bool)
    (tbl : list Row) :
  (∀ r, row_date (visit r).1 = row_date r
        ∧ row_time (visit r).1 = row_time r
        ∧ (¬ touched r → (visit r).1 = r)) →
  same_structure touched tbl (map (fun r => (visit r).1) tbl).
Proof.
  intros Hv. unfold same_structure. split_and!.
  - by rewrite length_map.
  - rewrite map_map. apply map_ext. intros r. apply Hv.
  - rewrite map_map. apply map_ext. intros r. apply Hv.
  - induction tbl as [|r rest IH]; simpl; constructor; [apply Hv | done].
Qed.

Lemma book_row_keeps formatted_date time purpose name (r : Row) :
  row_date (utils.book_row formatted_date time purpose name r).1 = row_date r
  ∧ row_time (utils.book_row formatted_date time purpose name r).1 = row_time r
  ∧ (¬ book_match formatted_date time r →
     (utils.book_row formatted_date time purpose name r).1 = r).
Proof.
  unfold utils.book_row, book_match.
  destruct (row_date r =? formatted_date) eqn:Hd; simpl; [|done].
  destruct (row_time r =? time) eqn:Ht; simpl; [|done].
  destruct (PyStr.lower (row_is_booked r) =? "false") eqn:Hb; simpl; [|done].
  apply String.eqb_eq in Hd, Ht, Hb. split_and!; try done.
  intros Hno. by destruct Hno.
Qed.

Lemma cancel_row_keeps formatted_date name (r : Row) :
  row_date (utils.cancel_row formatted_date name r).1 = row_date r
  ∧ row_time (utils.cancel_row formatted_date name r).1 = row_time r
  ∧ (¬ cancel_match formatted_date name r →
     (utils.cancel_row formatted_date name r).1 = r).
Proof.
  unfold utils.cancel_row, cancel_match.
  destruct (row_date r =? formatted_date) eqn:Hd; simpl; [|done].
  destruct (_ =? PyStr.lower (PyStr.strip name)) eqn:Hn; simpl; [|done].
  destruct (_ =? "true") eqn:Hb; simpl; [|done].
  apply String.eqb_eq in Hd, Hn, Hb. split_and!; try done.
  intros Hno. by destruct Hno.
Qed.

(** Replacing one table by one of the same structure. *)
Lemma files_same_structure_insert (touched : Row → Prop)
    (fs : gmap string (list Row)) (csv : string) (tbl tbl' : list Row) :
  fs !! csv = Some tbl →
  same_structure touched tbl tbl' →
  files_same_structure touched fs (<[csv := tbl']> fs).
Proof.
  intros Hf Hs path. destruct (decide (csv = path)) as [<-|Hne].
  - rewrite lookup_insert_eq, Hf. by constructor.
  - rewrite lookup_insert_ne by done.
    destruct (fs !! path); constructor. apply same_structure_refl.
Qed.

Lemma files_same_structure_refl (touched : Row → Prop) (fs : gmap string (list Row)) :
  files_same_structure touched fs fs.
Proof.
  intros path. destruct (fs !! path); constructor. apply same_structure_refl.
Qed.

(** C6. Whatever the arguments, after [store_appointment] and after
    [cancel_appointment] every file that existed still exists with the
    same number of rows and the same [date] and [time] columns in the
    same order, no file has appeared, and a row differs from its former
    self only if it passed the filter of the operation. *)
Theorem booking_and_cancelling_preserve_structure
    (parse_dayfirst : string → option string)
    (csv date time purpose name : string) (w : World) :
  files_same_structure
    (fun r => ∃ fd, parse_dayfirst date = Some fd ∧ book_match fd time r)
    (files w)
    (files (utils.store_appointment parse_dayfirst csv date time purpose name w).2)
  ∧ files_same_structure
      (fun r => ∃ fd, parse_dayfirst date = Some fd ∧ cancel_match fd name r)
      (files w)
      (files (utils.cancel_appointment parse_dayfirst csv date name w).2).
Proof.
  destruct (parse_dayfirst date) as [fd|] eqn:Hp.
  - destruct (files w !! csv) as [tbl|] eqn:Hf.
    + rewrite (store_appointment_run _ _ _ _ _ _ _ _ _ Hp Hf).
      rewrite (cancel_appointment_run _ _ _ _ _ _ _ Hp Hf).
      split.
      * destruct (existsb _ tbl); simpl; [|apply files_same_structure_refl].
        eapply files_same_structure_insert; [done|].
        apply same_structure_visit. intros r.
        destruct (book_row_keeps fd time purpose name r) as (?&?&Hk).
        split_and!; try done. intros Hno. apply Hk. intros Hm. apply Hno. eauto.
      * destruct (existsb _ tbl); simpl; [|apply files_same_structure_refl].
        eapply files_same_structure_insert; [done|].
        apply same_structure_visit. intros r.
        destruct (cancel_row_keeps fd name r) as (?&?&Hk).
        split_and!; try done. intros Hno. apply Hk. intros Hm. apply Hno. eauto.
    + rewrite (store_appointment_missing _ _ _ _ _ _ _ _ Hp Hf).
      rewrite (cancel_appointment_missing _ _ _ _ _ _ Hp Hf).
      split; apply files_same_structure_refl.
  - rewrite (store_appointment_unparsed _ _ _ _ _ _ _ Hp).
    rewrite (cancel_appointment_unparsed _ _ _ _ _ Hp).
    split; apply files_same_structure_refl.
Qed.

(** ** The two filters *)

(** The loop bodies decide exactly the two filters. *)
Lemma book_row_hit formatted_date time purpose name (r : Row) :
  (utils.book_row formatted_date time purpose name r).2 = true
  ↔ book_match formatted_date time r.
Proof.
  unfold utils.book_row, book_match.
  destruct (row_date r =? formatted_date) eqn:Hd; simpl.
  - destruct (row_time r =? time) eqn:Ht; simpl.
    + destruct (PyStr.lower (row_is_booked r) =? "false") eqn:Hb; simpl.
      * apply String.eqb_eq in Hd, Ht, Hb. by split.
      * apply String.eqb_neq in Hb. split; [done | by intros (_ & _ & ?)].
    + apply String.eqb_neq in Ht. split; [done | by intros (_ & ? & _)].
  - apply String.eqb_neq in Hd. split; [done | by intros (? & _)].
Qed.

Lemma cancel_row_hit formatted_date name (r : Row) :
  (utils.cancel_row formatted_date name r).2 = true
  ↔ cancel_match formatted_date name r.
Proof.
  unfold utils.cancel_row, cancel_match.
  destruct (row_date r =? formatted_date) eqn:Hd; simpl.
  - destruct (_ =? PyStr.lower (PyStr.strip name)) eqn:Hn; simpl.
    + destruct (_ =? "true") eqn:Hb; simpl.
      * apply String.eqb_eq in Hd, Hn, Hb. by split.
      * apply String.eqb_neq in Hb. split; [done | by intros (_ & _ & ?)].
    + apply String.eqb_neq in Hn. split; [done | by intros (_ & ? & _)].
  - apply String.eqb_neq in Hd. split; [done | by intros (? & _)].
Qed.

Lemma existsb_book_row formatted_date time purpose name (tbl : list Row) :
  existsb (fun r => (utils.book_row formatted_date time purpose name r).2) tbl = true
  ↔ Exists (book_match formatted_date time) tbl.
Proof.
  rewrite existsb_exists, Exists_exists. split.
  - intros (r & Hin & Hhit). exists r. split; [by apply list_elem_of_In|].
    by apply book_row_hit in Hhit.
  - intros (r & Hin & Hm). exists r. split; [by apply list_elem_of_In|].
    by apply book_row_hit.
Qed.

Lemma existsb_cancel_row formatted_date name (tbl : list Row) :
  existsb (fun r => (utils.cancel_row formatted_date name r).2) tbl = true
  ↔ Exists (cancel_match formatted_date name) tbl.
Proof.
  rewrite existsb_exists, Exists_exists. split.
  - intros (r & Hin & Hhit). exists r. split; [by apply list_elem_of_In|].
    by apply cancel_row_hit in Hhit.
  - intros (r & Hin & Hm). exists r. split; [by apply list_elem_of_In|].
    by apply cancel_row_hit.
Qed.

(** What the loop bodies do to a row, by cases on the filter. *)
Lemma book_row_result formatted_date time purpose name (r : Row) :
  (book_match formatted_date time r →
   (utils.book_row formatted_date time purpose name r).1
   = mkRow (row_date r) (row_time r) "True" purpose name)
  ∧ (¬ book_match formatted_date time r →
     (utils.book_row formatted_date time purpose name r).1 = r).
Proof.
  split; [|apply book_row_keeps].
  intros (Hd & Ht & Hb). unfold utils.book_row.
  apply String.eqb_eq in Hd, Ht, Hb. by rewrite Hd, Ht, Hb.
Qed.

Lemma cancel_row_result formatted_date name (r : Row) :
  (cancel_match formatted_date name r →
   (utils.cancel_row formatted_date name r).1
   = mkRow (row_date r) (row_time r) "False" "" "")
  ∧ (¬ cancel_match formatted_date name r →
     (utils.cancel_row formatted_date name r).1 = r).
Proof.
  split; [|apply cancel_row_keeps].
  intros (Hd & Hn & Hb). unfold utils.cancel_row.
  apply String.eqb_eq in Hd, Hn, Hb. by rewrite Hd, Hn, Hb.
Qed.

Lemma Forall2_visit {P : Row → Row → Prop} (visit : Row → Row) (tbl : list Row) :
  (∀ r, P r (visit r)) → Forall2 P tbl (map visit tbl).
Proof. intros HP. induction tbl; simpl; constructor; auto. Qed.

(** ** The slots that are listed *)

(** The time column as read pairs every row with the text of its [time]
    cell or with a converted scalar. *)
Lemma time_column_spec (infer_time : list string → list (option Scalar)) (tbl : list Row) :
  Forall2 (fun l r => l = LStr (row_time r) ∨ ∃ v, l = LVal v)
          (utils.time_column infer_time tbl) tbl.
Proof.
  unfold utils.time_column.
  apply Forall2_same_length_lookup_2; [by rewrite length_imap|].
  intros i l r Hl Hr. rewrite list_lookup_imap, Hr in Hl. simpl in Hl.
  injection Hl as <-.
  destruct (infer_time _ !! i) as [[v|]|]; eauto.
Qed.

Lemma sublist_map {A B} (f : A → B) (l1 l2 : list A) :
  l1 `sublist_of` l2 → map f l1 `sublist_of` map f l2.
Proof. induction 1; simpl; by constructor. Qed.

Lemma snd_combine_sublist {A B} (l : list A) (k : list B) :
  map snd (combine l k) `sublist_of` k.
Proof.
  revert k. induction l as [|x l IH]; intros [|y k]; simpl;
    try apply sublist_nil_l. by apply sublist_skip.
Qed.

(** The cells kept by the mask of [get_free_slots] are cells of free
    rows, in table order. *)
Lemma free_cells_selected formatted_date (dates : list (option string))
    (cells : list (Label * Row)) :
  let sel := map snd (filter (fun c : option string * (Label * Row) =>
                                utils.free_on formatted_date (c.1, c.2.2) = true)
                             (combine dates cells)) in
  sel `sublist_of` cells ∧ Forall (fun c => free_row c.2) sel.
Proof.
  revert cells. induction dates as [|d dates IH]; intros cells; simpl.
  - split; [apply sublist_nil_l | constructor].
  - destruct cells as [|cell rest]; simpl.
    + split; [apply sublist_nil_l | constructor].
    + destruct (IH rest) as [Hsub Hfree].
      rewrite filter_cons. case_decide as Hhit; simpl.
      * split; [by apply sublist_skip|].
        constructor; [|done].
        unfold utils.free_on in Hhit; simpl in Hhit.
        destruct d as [d|]; [|done].
        apply andb_true_iff in Hhit as [_ Hb].
        by apply String.eqb_eq in Hb.
      * split; [by apply sublist_cons | done].
Qed.

(** C7. Whatever [get_free_slots] returns is the [time] column, as read,
    of a selection of rows of the ledger that keeps their file order and
    consists only of rows whose [is_booked] cell lower-cases to false:
    each returned label stands beside its row in the table as read. *)
Theorem listed_slots_are_free_rows_in_file_order
    (parse_dayfirst : string → option string)
    (to_datetime : list string → option (list (option string)))
    (infer_time : list string → list (option Scalar))
    (csv date : string) (w : World) (slots : list Label) :
  (utils.get_free_slots parse_dayfirst to_datetime infer_time csv date w).1
  = Returns slots →
  let tbl := default [] (files w !! csv) in
  ∃ sel : list (Label * Row),
    sel `sublist_of` combine (utils.time_column infer_time tbl) tbl
    ∧ map snd sel `sublist_of` tbl
    ∧ Forall free_row (map snd sel)
    ∧ slots = map fst sel.
Proof.
  intros Hrun; simpl.
  destruct (parse_dayfirst date) as [fd|] eqn:Hp;
    [|by rewrite (get_free_slots_unparsed _ _ _ _ _ _ Hp) in Hrun].
  destruct (files w !! csv) as [tbl|] eqn:Hf; simpl.
  - rewrite (get_free_slots_run _ _ _ _ _ _ _ _ Hp Hf) in Hrun.
    destruct (to_datetime _) as [dates|]; [|done].
    simpl in Hrun. injection Hrun as <-.
    destruct (free_cells_selected fd dates
                (combine (utils.time_column infer_time tbl) tbl)) as [Hsub Hfree].
    eexists. split_and!; [exact Hsub | | | by rewrite map_map].
    + etrans; [by apply sublist_map | apply snd_combine_sublist].
    + by apply Forall_map.
  - rewrite (get_free_slots_missing _ _ _ _ _ _ _ Hp Hf) in Hrun.
    simpl in Hrun. injection Hrun as <-.
    exists []. split_and!; [apply sublist_nil_l | done | constructor | done].
Qed.

(** ** The agent tools *)

Section ToolFacts.

Variable parse_dayfirst : string → option string.
Variable to_datetime : list string → option (list (option string)).

(** The ledger function behind the cancellation tool only ever touches
    the path it is given. *)
Lemma cancel_appointment_footprint csv date name w :
  let w' := (utils.cancel_appointment parse_dayfirst csv date name w).2 in
  (∀ p, p ≠ csv → files w' !! p = files w !! p)
  ∧ ∃ events, trace w' = trace w ++ events ∧ only_touches csv events.
Proof.
  simpl. destruct (parse_dayfirst date) as [fd|] eqn:Hp.
  - destruct (files w !! csv) as [tbl|] eqn:Hf.
    + rewrite (cancel_appointment_run _ _ _ _ _ _ _ Hp Hf).
      destruct (existsb _ tbl); simpl.
      * split; [by intros p Hne; rewrite lookup_insert_ne|].
        exists [EvRead csv; EvWrite csv]. split; [by rewrite <- app_assoc|].
        by repeat constructor.
      * split; [done|]. exists [EvRead csv]. split; [done|].
        by repeat constructor.
    + rewrite (cancel_appointment_missing _ _ _ _ _ _ Hp Hf); simpl.
      split; [done|]. eexists. split; [done|]. by repeat constructor.
  - rewrite (cancel_appointment_unparsed _ _ _ _ _ Hp); simpl.
    split; [done|]. exists []. split; [by rewrite app_nil_r|]. constructor.
Qed.

(** The cancellation tool is the ledger cancellation at the fixed path
    followed by one spoken message. *)
Lemma cancel_tool_run userdata name date w :
  AppointmentAgent.cancel_appointment parse_dayfirst userdata name date w
  = match utils.cancel_appointment parse_dayfirst "appointments.csv" date name w with
    | (Returns success, w') =>
        let msg := if success then "Your appointment has been canceled."
                   else "Could not find an appointment to cancel." in
        (Returns (msg, userdata), mkWorld (files w') (trace w' ++ [EvSay msg]))
    | (Raises e, w') => (Raises e, w')
    end.
Proof.
  unfold AppointmentAgent.cancel_appointment, bind.
  destruct (utils.cancel_appointment _ _ _ _ _) as [[success|e] w']; done.
Qed.

End ToolFacts.

(** C9. Whatever ledger path the session is configured with, the
    cancellation tool works on ["appointments.csv"].  For a date that
    parses: when that file holds a row that passes the cancellation
    filter, the tool reads it, rewrites it with every such row cleared,
    and announces the cancellation; when it holds none, the tool reads it
    and reports that nothing was found; when it is missing, the tool
    reports the same after the console notice.  The outcome and the world
    are the same for every configured path; every other file, the
    session's own ledger included when it is configured elsewhere, is
    left as it was, and no other path is read or written. *)
Theorem cancel_tool_uses_fixed_path
    (parse_dayfirst : string → option string)
    (userdata : UserData) (name date : string) (w : World) :
  let fixed := "appointments.csv" in
  let cancelled := "Your appointment has been canceled." in
  let not_found := "Could not find an appointment to cancel." in
  let run := AppointmentAgent.cancel_appointment parse_dayfirst userdata name date w in
  (∀ fd tbl,
     parse_dayfirst date = Some fd → files w !! fixed = Some tbl →
     Exists (cancel_match fd name) tbl →
     ∃ tbl' : Table,
       run = (Returns (cancelled, userdata),
              mkWorld (<[fixed := tbl']> (files w))
                      (trace w ++ [EvRead fixed; EvWrite fixed; EvSay cancelled]))
       ∧ Forall2 (fun r r' =>
                    (cancel_match fd name r →
                     r' = mkRow (row_date r) (row_time r) "False" "" "")
                    ∧ (¬ cancel_match fd name r → r' = r)) tbl tbl')
  ∧ (∀ fd tbl,
       parse_dayfirst date = Some fd → files w !! fixed = Some tbl →
       Forall (fun r => ¬ cancel_match fd name r) tbl →
       run = (Returns (not_found, userdata),
              mkWorld (files w) (trace w ++ [EvRead fixed; EvSay not_found])))
  ∧ (∀ fd,
       parse_dayfirst date = Some fd → files w !! fixed = None →
       run = (Returns (not_found, userdata),
              mkWorld (files w)
                      (trace w ++ [EvPrint "CSV file not found: appointments.csv";
                                   EvSay not_found])))
  ∧ (∀ path,
       let run' := AppointmentAgent.cancel_appointment parse_dayfirst
                     (set_appointment_csv userdata path) name date w in
       tool_value run'.1 = tool_value run.1 ∧ run'.2 = run.2)
  ∧ (∀ p, p ≠ fixed → files run.2 !! p = files w !! p)
  ∧ (appointment_csv userdata ≠ fixed →
     files run.2 !! appointment_csv userdata = files w !! appointment_csv userdata)
  ∧ ∃ events, trace run.2 = trace w ++ events ∧ only_touches fixed events.
Proof.
  simpl.
  assert (Hfoot := cancel_appointment_footprint parse_dayfirst
                     "appointments.csv" date name w).
  simpl in Hfoot. destruct Hfoot as (Hfiles & events & Htrace & Honly).
  assert (Hrest : (∀ p, p ≠ "appointments.csv" →
            files (AppointmentAgent.cancel_appointment parse_dayfirst userdata name date w).2 !! p
            = files w !! p)).
  { intros p Hne. rewrite cancel_tool_run.
    destruct (utils.cancel_appointment _ _ _ _ _) as [[success|e] w'];
      simpl in *; by apply Hfiles. }
  split_and!.
  - intros fd tbl Hp Hf Hex. rewrite cancel_tool_run.
    rewrite (cancel_appointment_run _ _ _ _ _ _ _ Hp Hf).
    apply existsb_cancel_row in Hex. rewrite Hex; simpl.
    eexists. split; [by rewrite <- !app_assoc|].
    apply (Forall2_visit (fun r => (utils.cancel_row fd name r).1)).
    intros r. apply cancel_row_result.
  - intros fd tbl Hp Hf Hno. rewrite cancel_tool_run.
    rewrite (cancel_appointment_run _ _ _ _ _ _ _ Hp Hf).
    assert (Hex : existsb (fun r => (utils.cancel_row fd name r).2) tbl = false).
    { apply not_true_is_false. intros Hex. apply existsb_cancel_row in Hex.
      apply Exists_exists in Hex as (r & Hin & Hm).
      by apply (proj1 (Forall_forall _ _) Hno r Hin). }
    rewrite Hex; simpl. by rewrite <- app_assoc.
  - intros fd Hp Hf. rewrite cancel_tool_run.
    rewrite (cancel_appointment_missing _ _ _ _ _ _ Hp Hf); simpl.
    by rewrite <- app_assoc.
  - intros path. rewrite !cancel_tool_run.
    destruct (utils.cancel_appointment _ _ _ _ _) as [[success|e] w']; done.
  - exact Hrest.
  - apply Hrest.
  - rewrite cancel_tool_run.
    destruct (utils.cancel_appointment _ _ _ _ _) as [[success|e] w']; simpl in *.
    + eexists (events ++ [EvSay _]). split; [by rewrite Htrace, app_assoc|].
      apply Forall_app. split; [done | by repeat constructor].
    + by exists events.
Qed.

Section SlotsTool.

Variable parse_dayfirst : string → option string.
Variable to_datetime : list string → option (list (option string)).
Variable infer_time : list string → list (option Scalar).

Lemma get_free_slots_keeps_files csv date w :
  files (utils.get_free_slots parse_dayfirst to_datetime infer_time csv date w).2 = files w.
Proof.
  destruct (parse_dayfirst date) as [fd|] eqn:Hp.
  - destruct (files w !! csv) as [tbl|] eqn:Hf.
    + rewrite (get_free_slots_run _ _ _ _ _ _ _ _ Hp Hf). by destruct (to_datetime _).
    + by rewrite (get_free_slots_missing _ _ _ _ _ _ _ Hp Hf).
  - by rewrite (get_free_slots_unparsed _ _ _ _ _ _ Hp).
Qed.

(** The value of [get_free_slots] depends on the files only, not on the
    effects recorded so far. *)
Lemma get_free_slots_value_on_files csv date w w' :
  files w' = files w →
  (utils.get_free_slots parse_dayfirst to_datetime infer_time csv date w').1
  = (utils.get_free_slots parse_dayfirst to_datetime infer_time csv date w).1.
Proof.
  intros Hfiles.
  destruct (parse_dayfirst date) as [fd|] eqn:Hp.
  - destruct (files w !! csv) as [tbl|] eqn:Hf.
    + rewrite (get_free_slots_run _ _ _ _ _ _ _ _ Hp Hf).
      rewrite <- Hfiles in Hf.
      rewrite (get_free_slots_run _ _ _ _ _ _ _ _ Hp Hf).
      by destruct (to_datetime _).
    + rewrite (get_free_slots_missing _ _ _ _ _ _ _ Hp Hf).
      rewrite <- Hfiles in Hf.
      by rewrite (get_free_slots_missing _ _ _ _ _ _ _ Hp Hf).
  - by rewrite !(get_free_slots_unparsed _ _ _ _ _ _ Hp).
Qed.

(** [get_available_slots] in terms of the lookup it wraps: a missing
    ledger and a lookup that raises give the empty list; a list that the
    lookup returns is returned when all its labels are text, and makes the
    join of the spoken message raise when one is not. *)
Lemma get_available_slots_run userdata date w :
  ∃ w',
    AppointmentAgent.get_available_slots parse_dayfirst to_datetime infer_time
      userdata date w
    = (if bool_decide (is_Some (files w !! appointment_csv userdata)) then
         match (utils.get_free_slots parse_dayfirst to_datetime infer_time
                  (appointment_csv userdata) date w).1 with
         | Returns slots =>
             match texts_from 0 slots with
             | inl _ => Returns (slots, set_selected_date userdata date)
             | inr (index, found) => Raises (JoinTypeError index found)
             end
         | Raises _ => Returns ([], set_selected_date userdata date)
         end
       else Returns ([], set_selected_date userdata date), w')
    ∧ files w' = files w.
Proof.
  unfold AppointmentAgent.get_available_slots, bind, path_exists, try_except; simpl.
  destruct (bool_decide _); simpl; [|eauto].
  pose proof (get_free_slots_keeps_files (appointment_csv userdata) date w) as Hk.
  destruct (utils.get_free_slots _ _ _ _ _ _) as [[slots|e] w1]; simpl in *; [|eauto].
  destruct slots as [|l slots]; [simpl; eauto|].
  unfold str_join.
  destruct (texts_from 0 (l :: slots)) as [texts|[index found]]; simpl; eauto.
Qed.

(** [select_slot] once a date is selected, in terms of the lookup. *)
Lemma select_slot_run userdata time selected w :
  selected_date userdata = Some selected →
  ∃ w',
    AppointmentAgent.select_slot parse_dayfirst to_datetime infer_time userdata time w
    = (Returns match (utils.get_free_slots parse_dayfirst to_datetime infer_time
                        (appointment_csv userdata) selected w).1 with
               | Returns slots =>
                   if bool_decide (LStr time ∈ slots)
                   then (time, with_selected_time userdata time)
                   else ("Invalid slot selected", userdata)
               | Raises _ => ("Error verifying slots", userdata)
               end, w')
    ∧ files w' = files w.
Proof.
  intros Hsel.
  unfold AppointmentAgent.select_slot, bind, try_except. rewrite Hsel; simpl.
  pose proof (get_free_slots_keeps_files (appointment_csv userdata) selected w) as Hk.
  destruct (utils.get_free_slots _ _ _ _ _ _) as [[slots|e] w1]; simpl in *.
  - destruct (bool_decide (LStr time ∈ slots)); simpl; eauto.
  - eauto.
Qed.

End SlotsTool.

(** ** Booking, then listing *)

Lemma lookup_map {A B} (f : A → B) (l : list A) (i : nat) :
  map f l !! i = f <$> l !! i.
Proof.
  revert i. induction l as [|x l IH]; intros [|i]; simpl; try done; apply IH.
Qed.

(** The time column read from a table whose rows a loop has visited,
    against the rows before the visit, when the visit keeps the [time]
    cells. *)
Lemma time_column_after_visit (infer_time : list string → list (option Scalar))
    (visit : Row → Row) (tbl : list Row) :
  (∀ r, row_time (visit r) = row_time r) →
  Forall2 (fun l r => l = LStr (row_time r) ∨ ∃ v, l = LVal v)
          (utils.time_column infer_time (map visit tbl)) tbl.
Proof.
  intros Hkeep. unfold utils.time_column.
  apply Forall2_same_length_lookup_2; [by rewrite length_imap, length_map|].
  intros i l r Hl Hr. rewrite list_lookup_imap, lookup_map, Hr in Hl. simpl in Hl.
  injection Hl as <-. rewrite Hkeep.
  destruct (infer_time _ !! i) as [[v|]|]; eauto.
Qed.

(** On a ledger whose rows for the requested day are stored canonically,
    a row that is still listed after the booking loop does not carry the
    booked time as its label. *)
Lemma listed_after_booking formatted_date time purpose name
    (tbl : list Row) (dates : list (option string)) (labels : list Label) :
  canonical_for formatted_date tbl dates →
  Forall2 (fun l r => l = LStr (row_time r) ∨ ∃ v, l = LVal v) labels tbl →
  Forall (fun c : option string * (Label * Row) => c.2.1 ≠ LStr time)
         (filter (fun c => utils.free_on formatted_date (c.1, c.2.2) = true)
                 (combine dates
                    (combine labels
                       (map (fun r => (utils.book_row formatted_date time purpose name r).1)
                            tbl)))).
Proof.
  intros Hcanon. revert labels.
  induction Hcanon as [|row d tbl dates Hcanon _ IH]; intros labels Hlabels;
    inversion Hlabels as [|l ? labels' ? Hl Hrest]; subst; simpl; [constructor|].
  rewrite filter_cons. case_decide as Hfree; [|by apply IH].
  constructor; [|by apply IH]. simpl. intros ->.
  destruct Hl as [[= Ht]|[v [=]]].
  unfold utils.free_on in Hfree; simpl in Hfree.
  destruct d as [d|]; [|done].
  apply andb_true_iff in Hfree as [Hd Hb].
  apply String.eqb_eq in Hd. subst d.
  specialize (Hcanon eq_refl).
  revert Hb. unfold utils.book_row.
  rewrite Hcanon, <- Ht, !String.eqb_refl; simpl.
  destruct (PyStr.lower (row_is_booked row) =? "false") eqn:Hb0; simpl.
  - by intros Hb.
  - intros Hb. by rewrite Hb in Hb0.
Qed.

Lemma book_rows_keep_dates formatted_date time purpose name (tbl : list Row) :
  map row_date (map (fun r => (utils.book_row formatted_date time purpose name r).1) tbl)
  = map row_date tbl.
Proof.
  rewrite map_map. apply map_ext. intros r. apply book_row_keeps.
Qed.

(** C1, amended. Take a ledger whose date column [to_datetime]
    normalises and in which every row normalised to the canonical input
    date stores that canonical text.  If [store_appointment] returns true
    for a date and a time, [get_free_slots] for the same date on the
    resulting world returns a list, and the time is not in it. *)
Theorem booked_slot_not_listed_on_canonical_ledger
    (parse_dayfirst : string → option string)
    (to_datetime : list string → option (list (option string)))
    (infer_time : list string → list (option Scalar))
    (csv date time purpose name formatted_date : string)
    (tbl : Table) (dates : list (option string)) (w w1 : World) :
  parse_dayfirst date = Some formatted_date →
  files w !! csv = Some tbl →
  to_datetime (map row_date tbl) = Some dates →
  canonical_for formatted_date tbl dates →
  utils.store_appointment parse_dayfirst csv date time purpose name w = (Returns true, w1) →
  ∃ slots,
    (utils.get_free_slots parse_dayfirst to_datetime infer_time csv date w1).1
    = Returns slots
    ∧ LStr time ∉ slots.
Proof.
  intros Hp Hf Hdt Hcanon Hrun.
  rewrite (store_appointment_run _ _ _ _ _ _ _ _ _ Hp Hf) in Hrun.
  destruct (existsb _ tbl); [|done].
  injection Hrun as <-.
  erewrite get_free_slots_run; [|done|by simpl; apply lookup_insert_eq].
  rewrite book_rows_keep_dates, Hdt; simpl.
  eexists. split; [done|].
  assert (Hrows := listed_after_booking formatted_date time purpose name tbl dates
                     _ Hcanon
                     (time_column_after_visit infer_time
                        (fun r => (utils.book_row formatted_date time purpose name r).1)
                        tbl (fun r => proj1 (proj2 (book_row_keeps _ _ _ _ r))))).
  induction Hrows as [|c cs Hc _ IH]; simpl.
  - apply not_elem_of_nil.
  - apply not_elem_of_cons. split; [congruence | done].
Qed.

(** ** Closed examples on the date model *)

(** The worked scenario of the ledger: a free slot is listed, booked,
    no longer listed, then cancelled under another letter case. *)
Example worked_scenario :
  let csv := "appointments.csv" in
  let parse := DateLib.parse_dayfirst in
  let w0 := ledger_at csv one_free_slot in
  let w1 := (utils.store_appointment parse csv "30-05-2025" "10:00" "dentist" "Alice" w0).2 in
  let w2 := (utils.cancel_appointment parse csv "2025-05-30" "alice" w1).2 in
  (utils.get_free_slots parse DateLib.to_datetime CsvLib.infer_time csv "30-05-2025" w0).1 = Returns [LStr "10:00"]
  ∧ (utils.store_appointment parse csv "30-05-2025" "10:00" "dentist" "Alice" w0).1
    = Returns true
  ∧ files w1 !! csv = Some [mkRow "2025-05-30" "10:00" "True" "dentist" "Alice"]
  ∧ (utils.get_free_slots parse DateLib.to_datetime CsvLib.infer_time csv "2025-05-30" w1).1 = Returns []
  ∧ (utils.cancel_appointment parse csv "2025-05-30" "alice" w1).1 = Returns true
  ∧ files w2 !! csv = Some one_free_slot.
Proof. vm_compute. by split_and!. Qed.

(** C1, as stated, fails.  The ledger [two_spellings] holds the slot of
    30 May 2025 at 10:00 twice, once as [2025-05-30] and once as
    [2025-5-30].  Booking that slot updates the first row only, since the
    booking loop compares the stored text with the canonical date; the
    listing normalises both rows to the same day and still reports 10:00
    from the second one. *)
Lemma booked_slot_still_listed :
  ¬ booked_slot_not_listed DateLib.parse_dayfirst DateLib.to_datetime CsvLib.infer_time.
Proof.
  intros Hclaim.
  pose (w := ledger_at "appointments.csv" two_spellings).
  pose (w1 := (utils.store_appointment DateLib.parse_dayfirst "appointments.csv"
                 "30-05-2025" "10:00" "dentist" "Alice" w).2).
  apply (Hclaim w w1 "appointments.csv" "30-05-2025" "10:00" "dentist" "Alice"
           ltac:(by eexists) ltac:(by vm_compute) [LStr "10:00"] ltac:(by vm_compute)).
  apply list_elem_of_here.
Qed.

(** The two worlds of the example above, spelled out. *)
Example two_spellings_after_booking :
  let csv := "appointments.csv" in
  let w := ledger_at csv two_spellings in
  let run := utils.store_appointment DateLib.parse_dayfirst csv
               "30-05-2025" "10:00" "dentist" "Alice" w in
  run.1 = Returns true
  ∧ files run.2 !! csv
    = Some [mkRow "2025-05-30" "10:00" "True" "dentist" "Alice";
            mkRow "2025-5-30" "10:00" "False" "" ""]
  ∧ (utils.get_free_slots DateLib.parse_dayfirst DateLib.to_datetime CsvLib.infer_time csv
       "30-05-2025" run.2).1 = Returns [LStr "10:00"].
Proof. vm_compute. by split_and!. Qed.

(** Witness for C1, amended: the one-slot ledger of the worked scenario. *)
Lemma booked_slot_not_listed_witness :
  let csv := "appointments.csv" in
  let w := ledger_at csv one_free_slot in
  let w1 := (utils.store_appointment DateLib.parse_dayfirst csv
               "30-05-2025" "10:00" "dentist" "Alice" w).2 in
  canonical_for "2025-05-30" one_free_slot [Some "2025-05-30"]
  ∧ ∃ slots,
      (utils.get_free_slots DateLib.parse_dayfirst DateLib.to_datetime CsvLib.infer_time csv
         "30-05-2025" w1).1 = Returns slots
      ∧ LStr "10:00" ∉ slots.
Proof.
  simpl.
  assert (Hcanon : canonical_for "2025-05-30" one_free_slot [Some "2025-05-30"])
    by (repeat constructor).
  split; [exact Hcanon|].
  apply (booked_slot_not_listed_on_canonical_ledger
           DateLib.parse_dayfirst DateLib.to_datetime CsvLib.infer_time
           "appointments.csv" "30-05-2025" "10:00" "dentist" "Alice" "2025-05-30"
           one_free_slot [Some "2025-05-30"]
           (ledger_at "appointments.csv" one_free_slot)); try exact Hcanon;
    vm_compute; reflexivity.
Defined.

(** C2, at the failing input.  The slot is stored under the text
    [05-06-2025] and requested with the same text.  The request is
    normalised day first, to 5 June; the stored column is normalised
    without day-first, to 6 May; the slot is not found. *)
Theorem ambiguous_day_is_normalised_two_ways :
  let csv := "appointments.csv" in
  DateLib.parse_dayfirst "05-06-2025" = Some "2025-06-05"
  ∧ DateLib.to_datetime (map row_date ambiguous_day) = Some [Some "2025-05-06"]
  ∧ utils.get_free_slots DateLib.parse_dayfirst DateLib.to_datetime CsvLib.infer_time csv "05-06-2025"
      (ledger_at csv ambiguous_day)
    = (Returns [], mkWorld {[ csv := ambiguous_day ]} [EvRead csv]).
Proof. vm_compute. by split_and!. Qed.

(** Witness for C3: the 10:00 slot is already booked. *)
Lemma book_without_free_row_witness :
  let csv := "appointments.csv" in
  let w := ledger_at csv booked_and_free in
  Forall (fun row => ¬ book_match "2025-05-30" "10:00" row) booked_and_free
  ∧ utils.store_appointment DateLib.parse_dayfirst csv "30-05-2025" "10:00" "eye" "Bob" w
    = (Returns false, mkWorld (files w) (trace w ++ [EvRead csv])).
Proof.
  simpl.
  assert (Hno : Forall (fun row => ¬ book_match "2025-05-30" "10:00" row) booked_and_free).
  { repeat constructor; intros (_ & Ht & Hb); vm_compute in Ht, Hb; discriminate. }
  split; [exact Hno|].
  apply (book_without_free_row_writes_nothing DateLib.parse_dayfirst
           "appointments.csv" "30-05-2025" "10:00" "eye" "Bob" "2025-05-30"
           booked_and_free (ledger_at "appointments.csv" booked_and_free));
    [reflexivity | reflexivity | exact Hno].
Defined.

(** Witness for C4: a world without any file. *)
Lemma missing_ledger_witness :
  let csv := "appointments.csv" in
  let report := mkWorld ∅ [EvPrint "CSV file not found: appointments.csv"] in
  utils.get_free_slots DateLib.parse_dayfirst DateLib.to_datetime CsvLib.infer_time csv "30-05-2025" no_ledger
  = (Returns [], report)
  ∧ utils.store_appointment DateLib.parse_dayfirst csv "30-05-2025" "10:00" "eye" "Bob" no_ledger
    = (Returns false, report)
  ∧ utils.cancel_appointment DateLib.parse_dayfirst csv "30-05-2025" "Bob" no_ledger
    = (Returns false, report).
Proof.
  apply (missing_ledger_degrades_gracefully DateLib.parse_dayfirst DateLib.to_datetime
           CsvLib.infer_time "appointments.csv" "30-05-2025" "10:00" "eye" "Bob" "2025-05-30" no_ledger);
    reflexivity.
Defined.

(** Witness for C5: Alice's booking is cancelled by the first call. *)
Lemma cancel_twice_witness :
  let csv := "appointments.csv" in
  let w := ledger_at csv booked_and_free in
  let w1 := (utils.cancel_appointment DateLib.parse_dayfirst csv "30-05-2025" "alice" w).2 in
  (utils.cancel_appointment DateLib.parse_dayfirst csv "30-05-2025" "alice" w).1 = Returns true
  ∧ (utils.cancel_appointment DateLib.parse_dayfirst csv "30-05-2025" "alice" w1).1
    = Returns false.
Proof.
  split; [vm_compute; reflexivity|].
  apply (cancel_twice_second_returns_false DateLib.parse_dayfirst
           "appointments.csv" "30-05-2025" "alice" "2025-05-30"
           (ledger_at "appointments.csv" booked_and_free)).
  reflexivity.
Defined.

(** Witness for C7: of a booked and a free row, only the free one is
    listed. *)
Lemma listed_slots_witness :
  let csv := "appointments.csv" in
  let w := ledger_at csv booked_and_free in
  (utils.get_free_slots DateLib.parse_dayfirst DateLib.to_datetime CsvLib.infer_time csv "30-05-2025" w).1
  = Returns [LStr "11:00"]
  ∧ ∃ sel : list (Label * Row),
      sel `sublist_of` combine (utils.time_column CsvLib.infer_time booked_and_free)
                               booked_and_free
      ∧ map snd sel `sublist_of` booked_and_free
      ∧ Forall free_row (map snd sel)
      ∧ [LStr "11:00"] = map fst sel.
Proof.
  simpl.
  assert (Hrun : (utils.get_free_slots DateLib.parse_dayfirst DateLib.to_datetime CsvLib.infer_time
                    "appointments.csv" "30-05-2025"
                    (ledger_at "appointments.csv" booked_and_free)).1
                 = Returns [LStr "11:00"]) by (vm_compute; reflexivity).
  split; [exact Hrun|].
  exact (listed_slots_are_free_rows_in_file_order DateLib.parse_dayfirst
           DateLib.to_datetime CsvLib.infer_time "appointments.csv" "30-05-2025"
           (ledger_at "appointments.csv" booked_and_free) [LStr "11:00"] Hrun).
Defined.

(** Witness for C8: a text that is no date. *)
Lemma unparseable_date_witness :
  let csv := "appointments.csv" in
  let w := ledger_at csv one_free_slot in
  let error := ValueError "Unable to parse the date: not-a-date" in
  utils.get_free_slots DateLib.parse_dayfirst DateLib.to_datetime CsvLib.infer_time csv "not-a-date" w
  = (Raises error, w)
  ∧ utils.store_appointment DateLib.parse_dayfirst csv "not-a-date" "10:00" "eye" "Bob" w
    = (Raises error, w)
  ∧ utils.cancel_appointment DateLib.parse_dayfirst csv "not-a-date" "Bob" w
    = (Raises error, w).
Proof.
  apply (unparseable_date_fails_fast DateLib.parse_dayfirst DateLib.to_datetime
           CsvLib.infer_time "appointments.csv" "not-a-date" "10:00" "eye" "Bob"
           (ledger_at "appointments.csv" one_free_slot)).
  reflexivity.
Defined.

(** A session configured on [clinic.csv]: the booking is written there,
    and the cancellation tool, looking at [appointments.csv], reports
    that there is nothing to cancel and leaves the booking in place. *)
Example cancel_tool_misses_session_ledger :
  let parse := DateLib.parse_dayfirst in
  let userdata := set_appointment_csv default_userdata "clinic.csv" in
  let w0 := ledger_at "clinic.csv" one_free_slot in
  let booked := AppointmentAgent.appointment_saved parse userdata
                  "30-05-2025" "10:00" "dentist" "Alice" w0 in
  let cancelled := AppointmentAgent.cancel_appointment parse userdata
                     "Alice" "30-05-2025" booked.2 in
  tool_value booked.1 = Returns "The appointment has been saved."
  ∧ tool_value cancelled.1 = Returns "Could not find an appointment to cancel."
  ∧ files cancelled.2 !! "clinic.csv"
    = Some [mkRow "2025-05-30" "10:00" "True" "dentist" "Alice"].
Proof. vm_compute. by split_and!. Qed.

(** The slot-listing tool on an unparseable date: the exception is
    swallowed, an empty list is returned and the raw text is recorded. *)
Example slots_tool_on_bad_date :
  AppointmentAgent.get_available_slots DateLib.parse_dayfirst DateLib.to_datetime
    CsvLib.infer_time default_userdata "not-a-date" (ledger_at "appointments.csv" one_free_slot)
  = (Returns ([], set_selected_date default_userdata "not-a-date"),
     mkWorld {[ "appointments.csv" := one_free_slot ]}
             [EvSay "Sorry, I encountered an error retrieving slots.";
              EvLogError "Error retrieving free slots: "]).
Proof. vm_compute. reflexivity. Qed.

(** C10, at the failing input.  The ledger holds one free slot whose
    time label is written [1000].  The listing reads the label as the
    integer 1000 and returns it; the tool then joins the labels for its
    spoken message outside its [try], the join raises [TypeError] on the
    integer, and the exception leaves the tool: nothing is spoken and no
    list is returned. *)
Theorem slots_tool_raises_on_numeric_label :
  let csv := "appointments.csv" in
  let w := ledger_at csv numeric_label in
  utils.get_free_slots DateLib.parse_dayfirst DateLib.to_datetime CsvLib.infer_time
    csv "30-05-2025" w
  = (Returns [LVal (SInt 1000)], mkWorld {[ csv := numeric_label ]} [EvRead csv])
  ∧ AppointmentAgent.get_available_slots DateLib.parse_dayfirst DateLib.to_datetime
      CsvLib.infer_time default_userdata "30-05-2025" w
    = (Raises (JoinTypeError 0 "int"), mkWorld {[ csv := numeric_label ]} [EvRead csv]).
Proof. vm_compute. by split. Qed.

(** Witness for C9: a session configured on [clinic.csv], both ledgers
    holding Alice's booking.  The tool clears the booking in
    [appointments.csv] and leaves the one in [clinic.csv]. *)
Lemma cancel_tool_witness :
  let userdata := set_appointment_csv default_userdata "clinic.csv" in
  let run := AppointmentAgent.cancel_appointment DateLib.parse_dayfirst userdata
               "alice" "30-05-2025" two_ledgers in
  tool_value run.1 = Returns "Your appointment has been canceled."
  ∧ files run.2 !! "appointments.csv"
    = Some [mkRow "2025-05-30" "10:00" "False" "" "";
            mkRow "2025-05-30" "11:00" "False" "" ""]
  ∧ files run.2 !! "clinic.csv" = Some booked_and_free.
Proof.
  split; [vm_compute; reflexivity|].
  split; [vm_compute; reflexivity|].
  destruct (cancel_tool_uses_fixed_path DateLib.parse_dayfirst
              (set_appointment_csv default_userdata "clinic.csv")
              "alice" "30-05-2025" two_ledgers)
    as (_ & _ & _ & _ & _ & Hsession & _).
  simpl in Hsession. rewrite Hsession; [reflexivity | discriminate].
Defined.

(** ** More on the ledger operations *)

(** X1. [get_free_slots] is read-only: whatever the arguments and
    whatever the outcome, every file is as before, and the effects it
    adds contain no write and no access to another path. *)
Theorem get_free_slots_is_read_only
    (parse_dayfirst : string → option string)
    (to_datetime : list string → option (list (option string)))
    (infer_time : list string → list (option Scalar))
    (csv date : string) (w : World) :
  let w' := (utils.get_free_slots parse_dayfirst to_datetime infer_time csv date w).2 in
  files w' = files w
  ∧ ∃ events, trace w' = trace w ++ events
              ∧ no_write events ∧ only_touches csv events.
Proof.
  simpl. destruct (parse_dayfirst date) as [fd|] eqn:Hp.
  - destruct (files w !! csv) as [tbl|] eqn:Hf.
    + rewrite (get_free_slots_run _ _ _ _ _ _ _ _ Hp Hf).
      destruct (to_datetime _); simpl; (split; [done|]);
        exists [EvRead csv]; split_and!; try done; by repeat constructor.
    + rewrite (get_free_slots_missing _ _ _ _ _ _ _ Hp Hf); simpl.
      split; [done|]. eexists. split_and!; [done | |]; by repeat constructor.
  - rewrite (get_free_slots_unparsed _ _ _ _ _ _ Hp); simpl.
    split; [done|]. exists []. split_and!; [by rewrite app_nil_r | |]; constructor.
Qed.

(** X2. When the date parses and at least one row of the ledger passes
    the booking filter, [store_appointment] returns true after one read
    and one rewrite, and the rewritten table has every row that passed
    the filter, duplicates included, marked ["True"] with the given
    purpose and name, and every other row as it was. *)
Theorem store_appointment_books_every_match
    (parse_dayfirst : string → option string)
    (csv date time purpose name formatted_date : string) (tbl : Table) (w : World) :
  parse_dayfirst date = Some formatted_date →
  files w !! csv = Some tbl →
  Exists (book_match formatted_date time) tbl →
  ∃ tbl' : Table,
    utils.store_appointment parse_dayfirst csv date time purpose name w
    = (Returns true,
       mkWorld (<[csv := tbl']> (files w)) (trace w ++ [EvRead csv; EvWrite csv]))
    ∧ Forall2 (fun r r' =>
                 (book_match formatted_date time r →
                  r' = mkRow (row_date r) (row_time r) "True" purpose name)
                 ∧ (¬ book_match formatted_date time r → r' = r)) tbl tbl'.
Proof.
  intros Hp Hf Hex.
  rewrite (store_appointment_run _ _ _ _ _ _ _ _ _ Hp Hf).
  apply existsb_book_row with (purpose := purpose) (name := name) in Hex.
  rewrite Hex. eexists. split; [by rewrite <- app_assoc|].
  apply (Forall2_visit (fun r => (utils.book_row formatted_date time purpose name r).1)).
  intros r. apply book_row_result.
Qed.

(** X3. When the date parses and at least one row passes the
    cancellation filter, [cancel_appointment] returns true after one read
    and one rewrite, and the rewritten table has every row that passed
    the filter marked ["False"] with empty purpose and name, and every
    other row as it was. *)
Theorem cancel_appointment_clears_every_match
    (parse_dayfirst : string → option string)
    (csv date name formatted_date : string) (tbl : Table) (w : World) :
  parse_dayfirst date = Some formatted_date →
  files w !! csv = Some tbl →
  Exists (cancel_match formatted_date name) tbl →
  ∃ tbl' : Table,
    utils.cancel_appointment parse_dayfirst csv date name w
    = (Returns true,
       mkWorld (<[csv := tbl']> (files w)) (trace w ++ [EvRead csv; EvWrite csv]))
    ∧ Forall2 (fun r r' =>
                 (cancel_match formatted_date name r →
                  r' = mkRow (row_date r) (row_time r) "False" "" "")
                 ∧ (¬ cancel_match formatted_date name r → r' = r)) tbl tbl'.
Proof.
  intros Hp Hf Hex.
  rewrite (cancel_appointment_run _ _ _ _ _ _ _ Hp Hf).
  apply existsb_cancel_row in Hex.
  rewrite Hex. eexists. split; [by rewrite <- app_assoc|].
  apply (Forall2_visit (fun r => (utils.cancel_row formatted_date name r).1)).
  intros r. apply cancel_row_result.
Qed.

(** X4. [store_appointment] and [cancel_appointment] write exactly when
    they return true: a call that returns true has read and rewritten
    its own ledger and changed no other file; a call that returns false
    or raises has changed no file at all, written nothing and touched no
    other path. *)
Theorem mutations_write_iff_they_return_true
    (parse_dayfirst : string → option string)
    (csv date time purpose name : string) (w : World) :
  wrote_iff_true csv w
    (utils.store_appointment parse_dayfirst csv date time purpose name w)
  ∧ wrote_iff_true csv w
      (utils.cancel_appointment parse_dayfirst csv date name w).
Proof.
  assert (Hquiet : ∀ (r : Outcome bool) events,
             r ≠ Returns true → no_write events → only_touches csv events →
             wrote_iff_true csv w (r, mkWorld (files w) (trace w ++ events))).
  { intros r events Hr Hnw Hot. right. simpl. eauto 10. }
  assert (Hloud : ∀ tbl',
             wrote_iff_true csv w
               (Returns true,
                mkWorld (<[csv := tbl']> (files w))
                        ((trace w ++ [EvRead csv]) ++ [EvWrite csv]))).
  { intros tbl'. left. simpl. split_and!; [done | by eexists | by rewrite <- app_assoc]. }
  destruct (parse_dayfirst date) as [fd|] eqn:Hp.
  - destruct (files w !! csv) as [tbl|] eqn:Hf.
    + rewrite (store_appointment_run _ _ _ _ _ _ _ _ _ Hp Hf).
      rewrite (cancel_appointment_run _ _ _ _ _ _ _ Hp Hf).
      split; destruct (existsb _ tbl); try apply Hloud;
        apply Hquiet; try done; by repeat constructor.
    + rewrite (store_appointment_missing _ _ _ _ _ _ _ _ Hp Hf).
      rewrite (cancel_appointment_missing _ _ _ _ _ _ Hp Hf).
      split; apply Hquiet; try done; by repeat constructor.
  - rewrite (store_appointment_unparsed _ _ _ _ _ _ _ Hp).
    rewrite (cancel_appointment_unparsed _ _ _ _ _ Hp).
    assert (Hw : w = mkWorld (files w) (trace w ++ [])).
    { destruct w; simpl. by rewrite app_nil_r. }
    split; rewrite Hw at 2; apply Hquiet; try done; constructor.
Qed.

(** A row that a booking has visited no longer passes the filter of a
    booking of the same day and time. *)
Lemma book_row_settles formatted_date time purpose name purpose' name' (r : Row) :
  (utils.book_row formatted_date time purpose' name'
     (utils.book_row formatted_date time purpose name r).1).2 = false.
Proof.
  unfold utils.book_row at 2.
  destruct (_ && _) eqn:Hdt; simpl.
  - destruct (PyStr.lower (row_is_booked r) =? "false") eqn:Hb; simpl.
    + unfold utils.book_row; simpl. rewrite Hdt. reflexivity.
    + unfold utils.book_row. by rewrite Hdt, Hb.
  - unfold utils.book_row. by rewrite Hdt.
Qed.

Lemma existsb_after_book formatted_date time purpose name purpose' name' (tbl : list Row) :
  existsb (fun r => (utils.book_row formatted_date time purpose' name' r).2)
          (map (fun r => (utils.book_row formatted_date time purpose name r).1) tbl)
  = false.
Proof.
  induction tbl as [|row rest IH]; simpl; [done|].
  by rewrite book_row_settles, IH.
Qed.

(** X5. For a parseable date, a second [store_appointment] for the same
    date and time, under any purpose and name, run on the world the first
    call left, returns false and changes no file: a slot cannot be booked
    twice in a row. *)
Theorem second_booking_is_refused
    (parse_dayfirst : string → option string)
    (csv date time purpose name purpose' name' formatted_date : string) (w : World) :
  parse_dayfirst date = Some formatted_date →
  let w1 := (utils.store_appointment parse_dayfirst csv date time purpose name w).2 in
  let second := utils.store_appointment parse_dayfirst csv date time purpose' name' w1 in
  second.1 = Returns false ∧ files second.2 = files w1.
Proof.
  intros Hp; simpl.
  destruct (files w !! csv) as [tbl|] eqn:Hf.
  - rewrite (store_appointment_run _ _ _ _ _ _ _ _ _ Hp Hf).
    destruct (existsb _ tbl) eqn:Hhit; simpl.
    + erewrite store_appointment_run; [|done|by simpl; apply lookup_insert_eq].
      by rewrite existsb_after_book.
    + erewrite store_appointment_run; [|done|by simpl].
      assert (Hno : existsb (fun r => (utils.book_row formatted_date time purpose' name' r).2)
                            tbl = false).
      { apply not_true_is_false. intros Hex. apply existsb_book_row in Hex.
        apply (existsb_book_row _ _ purpose name) in Hex. congruence. }
      by rewrite Hno.
  - rewrite (store_appointment_missing _ _ _ _ _ _ _ _ Hp Hf); simpl.
    by erewrite store_appointment_missing.
Qed.

(** X6. After a [store_appointment] that returned true, a
    [cancel_appointment] for the same date under the booked name, up to
    letter case and surrounding white space, returns true. *)
Theorem booking_can_be_cancelled
    (parse_dayfirst : string → option string)
    (csv date time purpose name name' : string) (w w1 : World) :
  utils.store_appointment parse_dayfirst csv date time purpose name w = (Returns true, w1) →
  PyStr.lower (PyStr.strip name') = PyStr.lower (PyStr.strip name) →
  (utils.cancel_appointment parse_dayfirst csv date name' w1).1 = Returns true.
Proof.
  intros Hrun Hname.
  destruct (parse_dayfirst date) as [fd|] eqn:Hp;
    [|by rewrite (store_appointment_unparsed _ _ _ _ _ _ _ Hp) in Hrun].
  destruct (files w !! csv) as [tbl|] eqn:Hf;
    [|by rewrite (store_appointment_missing _ _ _ _ _ _ _ _ Hp Hf) in Hrun].
  rewrite (store_appointment_run _ _ _ _ _ _ _ _ _ Hp Hf) in Hrun.
  destruct (existsb _ tbl) eqn:Hhit; [|done].
  injection Hrun as <-.
  erewrite cancel_appointment_run; [|done|by simpl; apply lookup_insert_eq].
  assert (Hex : existsb (fun r => (utils.cancel_row fd name' r).2)
                  (map (fun r => (utils.book_row fd time purpose name r).1) tbl) = true).
  { apply existsb_book_row in Hhit. apply existsb_cancel_row.
    apply Exists_exists in Hhit as (r & Hin & Hm).
    apply Exists_exists.
    exists (utils.book_row fd time purpose name r).1. split.
    - apply list_elem_of_In, in_map_iff. exists r. split; [done|].
      by apply list_elem_of_In.
    - rewrite (proj1 (book_row_result fd time purpose name r) Hm).
      destruct Hm as (Hd & _ & _).
      unfold cancel_match; simpl. split_and!; [done | by symmetry | reflexivity]. }
  by rewrite Hex.
Qed.

(** ** Listing against booking and cancelling *)

Lemma free_on_spec formatted_date (d : option string) (r : Row) :
  utils.free_on formatted_date (d, r) = true ↔ d = Some formatted_date ∧ free_row r.
Proof.
  unfold utils.free_on, free_row; simpl. destruct d as [d|].
  - rewrite andb_true_iff, !String.eqb_eq. split.
    + by intros [-> ?].
    + intros [[= ->] ?]. done.
  - split; [done | by intros [? _]].
Qed.

Lemma cancel_rows_keep_dates formatted_date name (tbl : list Row) :
  map row_date (map (fun r => (utils.cancel_row formatted_date name r).1) tbl)
  = map row_date tbl.
Proof.
  rewrite map_map. apply map_ext. intros r. apply cancel_row_keeps.
Qed.

Lemma lookup_combine {A B} (l : list A) (k : list B) (i : nat) (a : A) (b : B) :
  combine l k !! i = Some (a, b) ↔ l !! i = Some a ∧ k !! i = Some b.
Proof.
  revert k i. induction l as [|x l IH]; intros [|y k] [|i]; simpl;
    try (split; [done | by intros [? ?]]).
  - split; [by intros [= -> ->] | by intros [[= ->] [= ->]]].
  - apply IH.
Qed.

(** The label the listing reads in the [time] cell of row [i]. *)
Lemma time_column_lookup (infer_time : list string → list (option Scalar))
    (tbl : list Row) (i : nat) (r : Row) :
  tbl !! i = Some r →
  utils.time_column infer_time tbl !! i
  = Some match infer_time (map row_time tbl) !! i with
         | Some (Some v) => LVal v
         | _ => LStr (row_time r)
         end.
Proof.
  intros Hr. unfold utils.time_column. by rewrite list_lookup_imap, Hr.
Qed.

(** The time column as read depends on the [time] cells only. *)
Lemma time_column_after_visit_eq (infer_time : list string → list (option Scalar))
    (visit : Row → Row) (tbl : list Row) :
  (∀ r, row_time (visit r) = row_time r) →
  utils.time_column infer_time (map visit tbl) = utils.time_column infer_time tbl.
Proof.
  intros Hkeep. unfold utils.time_column.
  rewrite map_map, (map_ext _ row_time) by done.
  apply list_eq. intros i. rewrite !list_lookup_imap, lookup_map.
  destruct (tbl !! i) as [r|]; simpl; [|done]. by rewrite Hkeep.
Qed.

(** The labels that the listing returns are those of the rows, position
    by position, whose normalised date is the requested day and whose
    [is_booked] cell reads false. *)
Lemma listed_label_iff formatted_date (dates : list (option string))
    (labels : list Label) (tbl : list Row) (l : Label) :
  l ∈ map (fun c : option string * (Label * Row) => c.2.1)
          (filter (fun c => utils.free_on formatted_date (c.1, c.2.2) = true)
                  (combine dates (combine labels tbl)))
  ↔ ∃ i r, dates !! i = Some (Some formatted_date)
           ∧ labels !! i = Some l ∧ tbl !! i = Some r ∧ free_row r.
Proof.
  rewrite list_elem_of_In, in_map_iff. split.
  - intros ([d [l' r]] & Hl & Hin). simpl in Hl. subst l'.
    apply list_elem_of_In, list_elem_of_filter in Hin as [Hmask Hin].
    apply list_elem_of_lookup in Hin as [i Hi].
    apply lookup_combine in Hi as [Hd Hi]. apply lookup_combine in Hi as [Hl Hr].
    simpl in Hmask. apply free_on_spec in Hmask as [-> Hfree]. eauto 10.
  - intros (i & r & Hd & Hl & Hr & Hfree).
    exists (Some formatted_date, (l, r)). split; [done|].
    apply list_elem_of_In, list_elem_of_filter. split.
    + simpl. by apply free_on_spec.
    + apply list_elem_of_lookup. exists i.
      apply lookup_combine. split; [done|]. by apply lookup_combine.
Qed.

(** X7. Take a ledger whose date column [to_datetime] normalises, every
    row stored under the canonical input date being normalised to it.
    After [cancel_appointment] for that date and a name, [get_free_slots]
    for the same date returns a list that holds, for every row that was
    booked under that name on that date, the label under which the [time]
    cell of that row is read; where the cell is read as text, that is the
    stored time itself. *)
Theorem cancelled_slots_are_listed
    (parse_dayfirst : string → option string)
    (to_datetime : list string → option (list (option string)))
    (infer_time : list string → list (option Scalar))
    (csv date name formatted_date : string)
    (tbl : Table) (dates : list (option string)) (i : nat) (row : Row) (w : World) :
  parse_dayfirst date = Some formatted_date →
  files w !! csv = Some tbl →
  to_datetime (map row_date tbl) = Some dates →
  recognised_for formatted_date tbl dates →
  tbl !! i = Some row →
  cancel_match formatted_date name row →
  let w1 := (utils.cancel_appointment parse_dayfirst csv date name w).2 in
  ∃ slots l,
    (utils.get_free_slots parse_dayfirst to_datetime infer_time csv date w1).1
    = Returns slots
    ∧ utils.time_column infer_time tbl !! i = Some l
    ∧ l ∈ slots
    ∧ ((∀ v, infer_time (map row_time tbl) !! i ≠ Some (Some v)) →
       LStr (row_time row) ∈ slots).
Proof.
  intros Hp Hf Hdt Hrec Hi Hm; simpl.
  rewrite (cancel_appointment_run _ _ _ _ _ _ _ Hp Hf).
  assert (Hex : existsb (fun r => (utils.cancel_row formatted_date name r).2) tbl = true).
  { apply existsb_cancel_row, Exists_exists. exists row.
    split; [by eapply list_elem_of_lookup_2 | done]. }
  rewrite Hex; simpl.
  erewrite get_free_slots_run; [|done|by simpl; apply lookup_insert_eq].
  rewrite cancel_rows_keep_dates, Hdt; simpl.
  rewrite time_column_after_visit_eq by (intros r; apply cancel_row_keeps).
  pose proof (time_column_lookup infer_time tbl i row Hi) as Hl.
  assert (Hlisted : ∀ l, utils.time_column infer_time tbl !! i = Some l →
            l ∈ map (fun c : option string * (Label * Row) => c.2.1)
                  (filter (fun c => utils.free_on formatted_date (c.1, c.2.2) = true)
                     (combine dates
                        (combine (utils.time_column infer_time tbl)
                           (map (fun r => (utils.cancel_row formatted_date name r).1)
                                tbl))))).
  { intros l Hlab. apply listed_label_iff.
    exists i, (utils.cancel_row formatted_date name row).1.
    destruct (Forall2_lookup_l _ _ _ _ _ Hrec Hi) as (d & Hd & Hdate).
    destruct Hm as (Hdate' & Hname & Hbooked).
    rewrite (Hdate Hdate') in Hd.
    split_and!; [done | done | by rewrite lookup_map, Hi |].
    rewrite (proj1 (cancel_row_result formatted_date name row)) by done.
    reflexivity. }
  eexists _, _. split_and!; [done | exact Hl | by apply Hlisted |].
  intros Hnone. apply Hlisted. rewrite Hl. f_equal.
  destruct (infer_time _ !! i) as [[v|]|]; [by destruct (Hnone v) | done | done].
Qed.

(** The rows of a faithfully normalised ledger that are listed under a
    text label are rows that pass the booking filter for that text. *)
Lemma listed_text_is_match (infer_time : list string → list (option Scalar))
    formatted_date time (tbl : list Row) (dates : list (option string)) :
  faithful_for formatted_date tbl dates →
  LStr time ∈ map (fun c : option string * (Label * Row) => c.2.1)
                  (filter (fun c => utils.free_on formatted_date (c.1, c.2.2) = true)
                          (combine dates (combine (utils.time_column infer_time tbl) tbl))) →
  Exists (book_match formatted_date time) tbl.
Proof.
  intros Hfaith Hin.
  apply listed_label_iff in Hin as (i & r & Hd & Hl & Hr & Hfree).
  apply Exists_exists. exists r. split; [by eapply list_elem_of_lookup_2|].
  rewrite (time_column_lookup infer_time tbl i r Hr) in Hl.
  split_and!; [| | done].
  - by apply (Forall2_lookup_lr _ _ _ _ _ _ Hfaith Hr Hd).
  - destruct (infer_time _ !! i) as [[v|]|]; by simplify_eq.
Qed.

(** A row of a faithfully normalised ledger that passes the booking
    filter is listed, under the label its [time] cell is read as. *)
Lemma match_is_listed (infer_time : list string → list (option Scalar))
    formatted_date time (tbl : list Row) (dates : list (option string)) :
  faithful_for formatted_date tbl dates →
  Exists (book_match formatted_date time) tbl →
  ∃ i row l,
    tbl !! i = Some row ∧ book_match formatted_date time row
    ∧ utils.time_column infer_time tbl !! i = Some l
    ∧ l ∈ map (fun c : option string * (Label * Row) => c.2.1)
              (filter (fun c => utils.free_on formatted_date (c.1, c.2.2) = true)
                      (combine dates (combine (utils.time_column infer_time tbl) tbl))).
Proof.
  intros Hfaith Hex.
  apply Exists_exists in Hex as (row & Hin & Hm).
  apply list_elem_of_lookup in Hin as [i Hi].
  pose proof (time_column_lookup infer_time tbl i row Hi) as Hl.
  eexists i, row, _. split_and!; [done | done | exact Hl |].
  apply listed_label_iff. exists i, row.
  destruct (Forall2_lookup_l _ _ _ _ _ Hfaith Hi) as (d & Hd & Hdate).
  destruct Hm as (Hdate' & _ & Hfree).
  rewrite (proj2 Hdate Hdate') in Hd. by split_and!.
Qed.

(** X8. Take a ledger whose date column [to_datetime] normalises, a row
    being normalised to the canonical input date exactly when it stores
    it.  Then [get_free_slots] returns a list such that: a time that is
    in the list as text can be booked ([store_appointment] for the same
    date and that time returns true); a time that can be booked stands in
    a row whose label, as the [time] cell is read, is in the list; and
    when no [time] cell is converted on reading, a time is in the list
    exactly when it can be booked. *)
Theorem listed_iff_bookable
    (parse_dayfirst : string → option string)
    (to_datetime : list string → option (list (option string)))
    (infer_time : list string → list (option Scalar))
    (csv date time purpose name formatted_date : string)
    (tbl : Table) (dates : list (option string)) (w : World) :
  parse_dayfirst date = Some formatted_date →
  files w !! csv = Some tbl →
  to_datetime (map row_date tbl) = Some dates →
  faithful_for formatted_date tbl dates →
  let booked := (utils.store_appointment parse_dayfirst csv date time purpose name w).1 in
  ∃ slots,
    (utils.get_free_slots parse_dayfirst to_datetime infer_time csv date w).1
    = Returns slots
    ∧ (LStr time ∈ slots → booked = Returns true)
    ∧ (booked = Returns true →
       ∃ i row l,
         tbl !! i = Some row ∧ book_match formatted_date time row
         ∧ utils.time_column infer_time tbl !! i = Some l ∧ l ∈ slots)
    ∧ ((∀ i v, infer_time (map row_time tbl) !! i ≠ Some (Some v)) →
       (LStr time ∈ slots ↔ booked = Returns true)).
Proof.
  intros Hp Hf Hdt Hfaith; simpl.
  rewrite (get_free_slots_run _ _ _ _ _ _ _ _ Hp Hf), Hdt; simpl.
  rewrite (store_appointment_run _ _ _ _ _ _ _ _ _ Hp Hf).
  assert (Hbooked : (if existsb (fun r => (utils.book_row formatted_date time purpose name r).2)
                          tbl
                     then (Returns true,
                           mkWorld (<[csv := map (fun r => (utils.book_row formatted_date
                                                              time purpose name r).1) tbl]>
                                      (files w))
                                   ((trace w ++ [EvRead csv]) ++ [EvWrite csv]))
                     else (Returns false, mkWorld (files w) (trace w ++ [EvRead csv]))).1
                    = Returns true
                    ↔ Exists (book_match formatted_date time) tbl).
  { rewrite <- (existsb_book_row formatted_date time purpose name).
    destruct (existsb _ tbl); simpl; split; congruence. }
  eexists. split; [done|]. split_and!.
  - intros Hin. apply Hbooked. by eapply listed_text_is_match.
  - intros Hrun. apply Hbooked in Hrun. by apply match_is_listed.
  - intros Hnone. rewrite Hbooked. split; [by apply listed_text_is_match|].
    intros Hex.
    destruct (match_is_listed infer_time _ _ _ _ Hfaith Hex)
      as (i & row & l & Hi & (_ & Ht & _) & Hl & Hin).
    rewrite (time_column_lookup infer_time tbl i row Hi) in Hl.
    injection Hl as <-.
    destruct (infer_time _ !! i) as [[v|]|] eqn:Hinf;
      [by destruct (Hnone i v) | |]; by rewrite Ht in Hin.
Qed.

(** ** More on the agent tools *)

(** [select_slot] always returns, keeps the files, and either keeps the
    session data or stores the time. *)
Lemma select_slot_outcome
    (parse_dayfirst : string → option string)
    (to_datetime : list string → option (list (option string)))
    (infer_time : list string → list (option Scalar))
    (userdata : UserData) (time : string) (w : World) :
  ∃ (msg : string) (userdata' : UserData) (w' : World),
    AppointmentAgent.select_slot parse_dayfirst to_datetime infer_time userdata time w
    = (Returns (msg, userdata'), w')
    ∧ files w' = files w
    ∧ (userdata' = userdata ∨ userdata' = with_selected_time userdata time).
Proof.
  destruct (selected_date userdata) as [selected|] eqn:Hsel.
  - destruct (select_slot_run parse_dayfirst to_datetime infer_time
                userdata time selected w Hsel) as (w' & Hrun & Hfiles).
    destruct (utils.get_free_slots _ _ _ _ _ _).1 as [slots|e];
      [destruct (bool_decide (LStr time ∈ slots))|];
      eexists _, _, w'; (split_and!; [exact Hrun | done | eauto]).
  - unfold AppointmentAgent.select_slot, bind. rewrite Hsel; simpl.
    eexists _, _, _. split_and!; [done | done | by left].
Qed.

(** X9. [select_slot] always returns and never changes a file, and what
    it returns and stores is decided by the selected date and by the list
    that [get_free_slots] returns for it on the session's ledger.
    Without a selected date it returns ["Date not selected"]; when the
    lookup raises, ["Error verifying slots"]; when the time is not in the
    list, ["Invalid slot selected"]; in these three cases the session
    data are kept.  When the time is in the list, it is returned and
    stored as [selected_time]. *)
Theorem select_slot_stores_exactly_listed_times
    (parse_dayfirst : string → option string)
    (to_datetime : list string → option (list (option string)))
    (infer_time : list string → list (option Scalar))
    (userdata : UserData) (time : string) (w : World) :
  let lookup selected :=
    (utils.get_free_slots parse_dayfirst to_datetime infer_time
       (appointment_csv userdata) selected w).1 in
  ∃ (msg : string) (userdata' : UserData) (w' : World),
    AppointmentAgent.select_slot parse_dayfirst to_datetime infer_time userdata time w
    = (Returns (msg, userdata'), w')
    ∧ files w' = files w
    ∧ (selected_date userdata = None →
       msg = "Date not selected" ∧ userdata' = userdata)
    ∧ (∀ selected e,
         selected_date userdata = Some selected → lookup selected = Raises e →
         msg = "Error verifying slots" ∧ userdata' = userdata)
    ∧ (∀ selected slots,
         selected_date userdata = Some selected → lookup selected = Returns slots →
         LStr time ∉ slots →
         msg = "Invalid slot selected" ∧ userdata' = userdata)
    ∧ (∀ selected slots,
         selected_date userdata = Some selected → lookup selected = Returns slots →
         LStr time ∈ slots →
         msg = time ∧ userdata' = with_selected_time userdata time).
Proof.
  simpl. destruct (selected_date userdata) as [selected|] eqn:Hsel.
  - destruct (select_slot_run parse_dayfirst to_datetime infer_time
                userdata time selected w Hsel) as (w' & Hrun & Hfiles).
    destruct (utils.get_free_slots _ _ _ _ _ _).1 as [slots|e] eqn:Hlook.
    + destruct (bool_decide (LStr time ∈ slots)) eqn:Hin.
      * apply bool_decide_eq_true in Hin.
        eexists _, _, w'. split_and!; [exact Hrun | done | done | | |].
        -- intros ? ? [= <-]. by rewrite Hlook.
        -- intros ? ? [= <-]. rewrite Hlook. by intros [= <-] ?.
        -- done.
      * apply bool_decide_eq_false in Hin.
        eexists _, _, w'. split_and!; [exact Hrun | done | done | | |].
        -- intros ? ? [= <-]. by rewrite Hlook.
        -- done.
        -- intros ? ? [= <-]. rewrite Hlook. by intros [= <-] ?.
    + eexists _, _, w'. split_and!; [exact Hrun | done | done | | |].
      * done.
      * intros ? ? [= <-]. by rewrite Hlook.
      * intros ? ? [= <-]. by rewrite Hlook.
  - unfold AppointmentAgent.select_slot, bind. rewrite Hsel; simpl.
    eexists _, _, _. split_and!; done.
Qed.

(** X10. When [get_available_slots] is given a date that does not parse,
    the session keeps that raw text as its selected date, and a following
    [select_slot], for any time, returns ["Error verifying slots"] and
    stores nothing. *)
Theorem unparseable_date_blocks_slot_selection
    (parse_dayfirst : string → option string)
    (to_datetime : list string → option (list (option string)))
    (infer_time : list string → list (option Scalar))
    (userdata userdata1 : UserData) (date time : string) (slots : list Label)
    (w w1 : World) :
  parse_dayfirst date = None →
  AppointmentAgent.get_available_slots parse_dayfirst to_datetime infer_time
    userdata date w
  = (Returns (slots, userdata1), w1) →
  selected_date userdata1 = Some date
  ∧ (AppointmentAgent.select_slot parse_dayfirst to_datetime infer_time
       userdata1 time w1).1
    = Returns ("Error verifying slots", userdata1).
Proof.
  intros Hp Hrun.
  destruct (get_available_slots_run parse_dayfirst to_datetime infer_time userdata date w)
    as (w' & Hrun' & _).
  rewrite (get_free_slots_unparsed _ _ _ _ _ _ Hp) in Hrun'. simpl in Hrun'.
  rewrite Hrun' in Hrun.
  assert (userdata1 = set_selected_date userdata date ∧ w1 = w') as [-> ->].
  { destruct (bool_decide _); by simplify_eq. }
  split; [done|].
  destruct (select_slot_run parse_dayfirst to_datetime infer_time
              (set_selected_date userdata date) time date w' eq_refl) as (w2 & -> & _).
  simpl. by rewrite (get_free_slots_unparsed _ _ _ _ _ _ Hp).
Qed.

(** X11. A time that [get_available_slots] has just returned can be
    selected: the following [select_slot] for that time returns it and
    stores it as [selected_time]. *)
Theorem listed_slot_can_be_selected
    (parse_dayfirst : string → option string)
    (to_datetime : list string → option (list (option string)))
    (infer_time : list string → list (option Scalar))
    (userdata userdata1 : UserData) (date time : string) (slots : list Label)
    (w w1 : World) :
  AppointmentAgent.get_available_slots parse_dayfirst to_datetime infer_time
    userdata date w
  = (Returns (slots, userdata1), w1) →
  LStr time ∈ slots →
  (AppointmentAgent.select_slot parse_dayfirst to_datetime infer_time
     userdata1 time w1).1
  = Returns (time, with_selected_time userdata1 time).
Proof.
  intros Hrun Hin.
  destruct (get_available_slots_run parse_dayfirst to_datetime infer_time userdata date w)
    as (w' & Hrun' & Hfiles).
  rewrite Hrun' in Hrun. clear Hrun'.
  destruct (bool_decide _);
    [|simplify_eq; by apply elem_of_nil in Hin].
  destruct (utils.get_free_slots _ _ _ _ _ _).1 as [found|e] eqn:Hlook;
    [|simplify_eq; by apply elem_of_nil in Hin].
  destruct (texts_from 0 found) as [texts|[index kind]]; [|done].
  injection Hrun as -> <- <-.
  destruct (select_slot_run parse_dayfirst to_datetime infer_time
              (set_selected_date userdata date) time date w' eq_refl) as (w2 & -> & _).
  simpl. rewrite (get_free_slots_value_on_files _ _ _ _ _ _ _ Hfiles), Hlook.
  by rewrite bool_decide_eq_true_2.
Qed.

(** X12. Unlike the slot-listing tool, the booking tool and the
    cancellation tool do not catch the parsing error: on a date that does
    not parse each raises the [ValueError] of the guard, and the world is
    untouched, so that no message is spoken. *)
Theorem booking_and_cancel_tools_propagate_parse_error
    (parse_dayfirst : string → option string)
    (userdata : UserData) (date time purpose name : string) (w : World) :
  parse_dayfirst date = None →
  let error := ValueError ("Unable to parse the date: " ++ date) in
  AppointmentAgent.appointment_saved parse_dayfirst userdata date time purpose name w
  = (Raises error, w)
  ∧ AppointmentAgent.cancel_appointment parse_dayfirst userdata name date w
    = (Raises error, w).
Proof.
  intros Hp; simpl.
  unfold AppointmentAgent.appointment_saved, AppointmentAgent.cancel_appointment, bind.
  rewrite (store_appointment_unparsed _ _ _ _ _ _ _ Hp).
  by rewrite (cancel_appointment_unparsed _ _ _ _ _ Hp).
Qed.

Lemma texts_from_inl (start : nat) (parts : list Label) (texts : list string) :
  texts_from start parts = inl texts → Forall (fun l => ∃ s, l = LStr s) parts.
Proof.
  revert start texts. induction parts as [|[s|v] parts IH]; intros start texts; simpl.
  - constructor.
  - destruct (texts_from (S start) parts) as [rest|e] eqn:Hrest; [|done].
    intros _. constructor; [by eexists | by eapply IH].
  - done.
Qed.

Lemma texts_from_inr (start : nat) (parts : list Label) (index : nat) (found : string) :
  texts_from start parts = inr (index, found) →
  ∃ v, (start ≤ index)%nat ∧ parts !! (index - start)%nat = Some (LVal v)
       ∧ found = py_type_name v.
Proof.
  revert start. induction parts as [|[s|v] parts IH]; intros start; simpl.
  - done.
  - destruct (texts_from (S start) parts) as [rest|e] eqn:Hrest; [done|].
    intros [= ->]. destruct (IH _ Hrest) as (v & Hle & Hv & ->).
    exists v. split_and!; [lia | | done].
    replace (index - start)%nat with (S (index - S start)) by lia. done.
  - intros [= <- <-]. exists v. by rewrite Nat.sub_diag.
Qed.

(** X22. What the slot-listing tool does catch.  It never changes a file.
    When the underlying [get_free_slots] raises, whatever the exception,
    and when the session's ledger is missing, it returns the empty list.
    Whenever it returns, the session data it leaves have the raw input
    date as [selected_date], and the list it returns holds text labels
    only.  The one exception that leaves it is the [TypeError] of the
    join of the spoken message, raised on the first label of the list
    returned by the lookup that is not text. *)
Theorem slots_tool_catches_lookup_errors
    (parse_dayfirst : string → option string)
    (to_datetime : list string → option (list (option string)))
    (infer_time : list string → list (option Scalar))
    (userdata : UserData) (date : string) (w : World) :
  let lookup := (utils.get_free_slots parse_dayfirst to_datetime infer_time
                   (appointment_csv userdata) date w).1 in
  let run := AppointmentAgent.get_available_slots parse_dayfirst to_datetime infer_time
               userdata date w in
  files run.2 = files w
  ∧ (∀ e, lookup = Raises e → run.1 = Returns ([], set_selected_date userdata date))
  ∧ (files w !! appointment_csv userdata = None →
     run.1 = Returns ([], set_selected_date userdata date))
  ∧ (∀ slots userdata',
       run.1 = Returns (slots, userdata') →
       userdata' = set_selected_date userdata date
       ∧ selected_date userdata' = Some date
       ∧ Forall (fun l => ∃ s, l = LStr s) slots)
  ∧ (∀ e, run.1 = Raises e →
       ∃ slots index v,
         lookup = Returns slots
         ∧ slots !! index = Some (LVal v)
         ∧ e = JoinTypeError index (py_type_name v)).
Proof.
  simpl.
  destruct (get_available_slots_run parse_dayfirst to_datetime infer_time userdata date w)
    as (w' & Hrun & Hfiles).
  rewrite Hrun; simpl. split_and!.
  - done.
  - intros e He. rewrite He. by destruct (bool_decide _).
  - intros Hno. rewrite bool_decide_eq_false_2; [done|]. rewrite Hno. by intros [? ?].
  - intros slots userdata'.
    destruct (bool_decide _); [|intros [= <- <-]; by split_and!].
    destruct (utils.get_free_slots _ _ _ _ _ _).1 as [found|e];
      [|intros [= <- <-]; by split_and!].
    destruct (texts_from 0 found) as [texts|[index kind]] eqn:Htexts; [|done].
    intros [= <- <-]. split_and!; [done | done | by eapply texts_from_inl].
  - intros e.
    destruct (bool_decide _); [|done].
    destruct (utils.get_free_slots _ _ _ _ _ _).1 as [found|e']; [|done].
    destruct (texts_from 0 found) as [texts|[index kind]] eqn:Htexts; [done|].
    intros [= <-].
    destruct (texts_from_inr _ _ _ _ Htexts) as (v & _ & Hv & ->).
    rewrite Nat.sub_0_r in Hv. eauto 10.
Qed.

(** ** Sessions *)

Section SessionFacts.

Variable parse_dayfirst : string → option string.
Variable to_datetime : list string → option (list (option string)).
Variable infer_time : list string → list (option Scalar).

(** The booking tool is the ledger booking on the session's path followed
    by one spoken message. *)
Lemma appointment_saved_run userdata date time purpose name w :
  AppointmentAgent.appointment_saved parse_dayfirst userdata date time purpose name w
  = match utils.store_appointment parse_dayfirst (appointment_csv userdata)
            date time purpose name w with
    | (Returns saved, w') =>
        let status_msg := if saved then "The appointment has been saved."
                          else "There was an error saving the appointment." in
        (Returns (status_msg, userdata), mkWorld (files w') (trace w' ++ [EvSay status_msg]))
    | (Raises e, w') => (Raises e, w')
    end.
Proof.
  unfold AppointmentAgent.appointment_saved, bind.
  destruct (utils.store_appointment _ _ _ _ _ _ _) as [[saved|e] w']; done.
Qed.

(** The files after a booking, whatever its outcome. *)
Lemma store_appointment_files csv date time purpose name w :
  files (utils.store_appointment parse_dayfirst csv date time purpose name w).2 = files w
  ∨ ∃ fd tbl,
      files w !! csv = Some tbl
      ∧ files (utils.store_appointment parse_dayfirst csv date time purpose name w).2
        = <[csv := map (fun r => (utils.book_row fd time purpose name r).1) tbl]> (files w).
Proof.
  destruct (parse_dayfirst date) as [fd|] eqn:Hp.
  - destruct (files w !! csv) as [tbl|] eqn:Hf.
    + rewrite (store_appointment_run _ _ _ _ _ _ _ _ _ Hp Hf).
      destruct (existsb _ tbl); simpl; [right; eauto | by left].
    + left. by rewrite (store_appointment_missing _ _ _ _ _ _ _ _ Hp Hf).
  - left. by rewrite (store_appointment_unparsed _ _ _ _ _ _ _ Hp).
Qed.

(** The files after a cancellation, whatever its outcome. *)
Lemma cancel_appointment_files csv date name w :
  files (utils.cancel_appointment parse_dayfirst csv date name w).2 = files w
  ∨ ∃ fd tbl,
      files w !! csv = Some tbl
      ∧ files (utils.cancel_appointment parse_dayfirst csv date name w).2
        = <[csv := map (fun r => (utils.cancel_row fd name r).1) tbl]> (files w).
Proof.
  destruct (parse_dayfirst date) as [fd|] eqn:Hp.
  - destruct (files w !! csv) as [tbl|] eqn:Hf.
    + rewrite (cancel_appointment_run _ _ _ _ _ _ _ Hp Hf).
      destruct (existsb _ tbl); simpl; [right; eauto | by left].
    + left. by rewrite (cancel_appointment_missing _ _ _ _ _ _ Hp Hf).
  - left. by rewrite (cancel_appointment_unparsed _ _ _ _ _ Hp).
Qed.

Lemma same_structure_any_trans (t1 t2 t3 : list Row) :
  same_structure (fun _ => True) t1 t2 →
  same_structure (fun _ => True) t2 t3 →
  same_structure (fun _ => True) t1 t3.
Proof.
  intros (Hl1 & Hd1 & Ht1 & _) (Hl2 & Hd2 & Ht2 & _).
  split_and!; [congruence | congruence | congruence |].
  apply Forall2_same_length_lookup_2; [congruence|].
  intros i r r' _ _ Hno. by destruct Hno.
Qed.

Lemma files_same_structure_any_trans (f1 f2 f3 : gmap string (list Row)) :
  files_same_structure (fun _ => True) f1 f2 →
  files_same_structure (fun _ => True) f2 f3 →
  files_same_structure (fun _ => True) f1 f3.
Proof.
  intros H12 H23 path. specialize (H12 path). specialize (H23 path).
  destruct H12 as [t1 t2 Hs12|]; inversion H23 as [? t3 Hs23|]; subst; constructor.
  by eapply same_structure_any_trans.
Qed.

Lemma same_structure_any_visit (visit : Row → Row * bool) (tbl : list Row) :
  (∀ r, row_date (visit r).1 = row_date r ∧ row_time (visit r).1 = row_time r) →
  same_structure (fun _ => True) tbl (map (fun r => (visit r).1) tbl).
Proof.
  intros Hv. apply same_structure_visit. intros r.
  destruct (Hv r). split_and!; try done; intros Hno; by destruct Hno.
Qed.

(** One tool call keeps the ledger path of the session and the structure
    of every file. *)
Lemma tool_step_invariant call userdata w :
  let s' := tool_step parse_dayfirst to_datetime infer_time call (userdata, w) in
  appointment_csv s'.1 = appointment_csv userdata
  ∧ files_same_structure (fun _ => True) (files w) (files s'.2).
Proof.
  destruct call as [date|time|purpose|name|date time purpose name|name date]; simpl.
  - destruct (get_available_slots_run parse_dayfirst to_datetime infer_time
                userdata date w) as (w' & Hrun & Hfiles).
    unfold session_after. rewrite Hrun.
    assert (Hcases : ∀ (o : Outcome (list Label * UserData)),
              (∀ slots userdata', o = Returns (slots, userdata') →
                 userdata' = set_selected_date userdata date) →
              appointment_csv (match o with
                               | Returns (_, userdata') => (userdata', w')
                               | Raises _ => (set_selected_date userdata date, w')
                               end).1 = appointment_csv userdata
              ∧ files_same_structure (fun _ => True) (files w)
                  (files (match o with
                          | Returns (_, userdata') => (userdata', w')
                          | Raises _ => (set_selected_date userdata date, w')
                          end).2)).
    { intros [[slots userdata']|e] Ho; simpl; rewrite Hfiles;
        (split; [|apply files_same_structure_refl]); [|done].
      by rewrite (Ho slots userdata' eq_refl). }
    apply Hcases. intros slots userdata' Ho.
    destruct (bool_decide _); [|by simplify_eq].
    destruct (utils.get_free_slots _ _ _ _ _ _).1 as [found|e]; [|by simplify_eq].
    destruct (texts_from 0 found) as [texts|[index kind]]; by simplify_eq.
  - destruct (select_slot_outcome parse_dayfirst to_datetime infer_time userdata time w)
      as (msg & userdata' & w' & Hrun & Hfiles & Hud).
    unfold session_after. rewrite Hrun; simpl. rewrite Hfiles.
    split; [|apply files_same_structure_refl].
    destruct Hud as [->| ->]; done.
  - split; [done | apply files_same_structure_refl].
  - split; [done | apply files_same_structure_refl].
  - unfold session_after. rewrite appointment_saved_run.
    pose proof (store_appointment_files (appointment_csv userdata)
                  date time purpose name w) as Hfiles.
    destruct (utils.store_appointment _ _ _ _ _ _ _) as [[saved|e] w']; simpl in *;
      (split; [done|]);
      (destruct Hfiles as [->|(fd & tbl & Hf & ->)];
       [apply files_same_structure_refl|]);
      (eapply files_same_structure_insert; [done|]);
      apply same_structure_any_visit; intros r;
      destruct (book_row_keeps fd time purpose name r) as (? & ? & _); done.
  - unfold session_after. rewrite cancel_tool_run.
    pose proof (cancel_appointment_files "appointments.csv" date name w) as Hfiles.
    destruct (utils.cancel_appointment _ _ _ _ _) as [[success|e] w']; simpl in *;
      (split; [done|]);
      (destruct Hfiles as [->|(fd & tbl & Hf & ->)];
       [apply files_same_structure_refl|]);
      (eapply files_same_structure_insert; [done|]);
      apply same_structure_any_visit; intros r;
      destruct (cancel_row_keeps fd name r) as (? & ? & _); done.
Qed.

End SessionFacts.

(** X13. The booking tool writes on the session's ledger only: every
    other file is as before.  Of the session data it uses the ledger path
    and nothing else, so that what the session has collected (selected
    date and time, purpose, name) has no influence on what is booked, and
    it returns the session data unchanged. *)
Theorem booking_tool_uses_session_ledger_only
    (parse_dayfirst : string → option string)
    (userdata : UserData) (date time purpose name : string) (w : World) :
  let run := AppointmentAgent.appointment_saved parse_dayfirst userdata
               date time purpose name w in
  (∀ p, p ≠ appointment_csv userdata → files run.2 !! p = files w !! p)
  ∧ (∀ msg userdata', run.1 = Returns (msg, userdata') → userdata' = userdata)
  ∧ (∀ other : UserData,
       appointment_csv other = appointment_csv userdata →
       let run' := AppointmentAgent.appointment_saved parse_dayfirst other
                     date time purpose name w in
       tool_value run'.1 = tool_value run.1 ∧ run'.2 = run.2).
Proof.
  simpl. split_and!.
  - intros p Hne. rewrite appointment_saved_run.
    pose proof (store_appointment_files parse_dayfirst (appointment_csv userdata)
                  date time purpose name w) as Hfiles.
    destruct (utils.store_appointment _ _ _ _ _ _ _) as [[saved|e] w']; simpl in *;
      destruct Hfiles as [->|(fd & tbl & _ & ->)]; try done;
      by rewrite lookup_insert_ne.
  - intros msg userdata'. rewrite appointment_saved_run.
    destruct (utils.store_appointment _ _ _ _ _ _ _) as [[saved|e] w']; simpl; congruence.
  - intros other Hcsv. rewrite !appointment_saved_run, Hcsv.
    destruct (utils.store_appointment _ _ _ _ _ _ _) as [[saved|e] w']; done.
Qed.

(** X14. Along any sequence of tool calls, from any session and world,
    the ledger path of the session never changes and every file keeps its
    rows: no file appears or disappears, and each keeps the number of its
    rows and its [date] and [time] columns in order. *)
Theorem session_preserves_ledger_structure
    (parse_dayfirst : string → option string)
    (to_datetime : list string → option (list (option string)))
    (infer_time : list string → list (option Scalar))
    (calls : list ToolCall) (userdata : UserData) (w : World) :
  let s' := run_session parse_dayfirst to_datetime infer_time calls (userdata, w) in
  appointment_csv s'.1 = appointment_csv userdata
  ∧ files_same_structure (fun _ => True) (files w) (files s'.2).
Proof.
  simpl. revert userdata w.
  induction calls as [|call calls IH]; intros userdata w; simpl.
  - split; [done | apply files_same_structure_refl].
  - destruct (tool_step_invariant parse_dayfirst to_datetime infer_time call userdata w)
      as [Hcsv Hfiles].
    destruct (tool_step parse_dayfirst to_datetime infer_time call (userdata, w))
      as [userdata1 w1] eqn:Hstep; simpl in *.
    destruct (IH userdata1 w1) as [Hcsv' Hfiles'].
    unfold run_session in *. split; [congruence|].
    by eapply files_same_structure_any_trans.
Qed.

(** ** Truncating a chat context *)

Section Truncation.

Variable valid : ChatItem → bool.

(** With a positive bound, the loop collects the first valid items of
    the reversed list until the bound is reached. *)
Lemma collect_last_spec (n : Z) (xs acc : list ChatItem) :
  (Z.of_nat (length acc) < n)%Z →
  BaseAgent.collect_last valid n xs acc
  = acc ++ take (Z.to_nat n - length acc) (filter (fun i => valid i = true) xs).
Proof.
  revert acc. induction xs as [|x xs IH]; intros acc Hlt; simpl.
  - by rewrite filter_nil, take_nil, app_nil_r.
  - rewrite filter_cons. destruct (valid x) eqn:Hv.
    + rewrite decide_True by done. rewrite length_app; simpl.
      destruct (Z.leb_spec n (Z.of_nat (length acc + 1))) as [Hle|Hgt].
      * replace (Z.to_nat n - length acc) with 1 by lia. simpl. by rewrite take_0.
      * rewrite IH by (rewrite length_app; simpl; lia).
        rewrite length_app; simpl. rewrite <- app_assoc; simpl.
        replace (Z.to_nat n - length acc) with (S (Z.to_nat n - (length acc + 1))) by lia.
        done.
    + rewrite decide_False by done.
      destruct (Z.leb_spec n (Z.of_nat (length acc))) as [Hle|Hgt]; [lia|].
      by apply IH.
Qed.

(** With a bound of zero or less, the loop stops after its first round. *)
Lemma collect_last_nonpositive (n : Z) (xs : list ChatItem) :
  (n ≤ 0)%Z →
  BaseAgent.collect_last valid n xs []
  = match xs with
    | x :: _ => if valid x then [x] else []
    | [] => []
    end.
Proof.
  intros Hn. destruct xs as [|x xs]; simpl; [done|].
  destruct (valid x); simpl;
    (destruct (n <=? _)%Z eqn:Hle; [done | apply Z.leb_gt in Hle; simpl in Hle; lia]).
Qed.

End Truncation.

Lemma drop_leading_calls_suffix (l : list ChatItem) :
  ∃ k, BaseAgent.drop_leading_calls l = drop k l.
Proof.
  induction l as [|x l [k IH]]; simpl.
  - by exists 0.
  - destruct (BaseAgent.is_call x); [by exists (S k) | by exists 0].
Qed.

Lemma drop_leading_calls_head (l : list ChatItem) (item : ChatItem) :
  head (BaseAgent.drop_leading_calls l) = Some item → BaseAgent.is_call item = false.
Proof.
  induction l as [|x l IH]; simpl; [done|].
  destruct (BaseAgent.is_call x) eqn:Hc; [done|].
  simpl. by intros [= <-].
Qed.

Lemma drop_leading_calls_id (l : list ChatItem) :
  (∀ item, head l = Some item → BaseAgent.is_call item = false) →
  BaseAgent.drop_leading_calls l = l.
Proof.
  destruct l as [|x l]; simpl; [done|].
  intros Hh. by rewrite (Hh x eq_refl).
Qed.

(** The closed form of the truncation for a positive bound. *)
Lemma truncate_positive (items : list ChatItem) (n : Z)
    (keep_system_message keep_function_call : bool) :
  (1 ≤ n)%Z →
  BaseAgent._truncate_chat_ctx items n keep_system_message keep_function_call
  = BaseAgent.drop_leading_calls
      (last_n (Z.to_nat n)
         (filter (fun i => BaseAgent._valid_item keep_system_message
                             keep_function_call i = true) items)).
Proof.
  intros Hn. unfold BaseAgent._truncate_chat_ctx, last_n.
  rewrite collect_last_spec by (simpl; lia). simpl.
  rewrite Nat.sub_0_r, filter_reverse, take_reverse, reverse_involutive.
  done.
Qed.

(** The truncation for a bound of zero or less. *)
Lemma truncate_nonpositive (items : list ChatItem) (n : Z)
    (keep_system_message keep_function_call : bool) :
  (n ≤ 0)%Z →
  BaseAgent._truncate_chat_ctx items n keep_system_message keep_function_call
  = match last items with
    | Some item =>
        if BaseAgent._valid_item keep_system_message keep_function_call item
           && negb (BaseAgent.is_call item)
        then [item] else []
    | None => []
    end.
Proof.
  intros Hn. unfold BaseAgent._truncate_chat_ctx.
  rewrite collect_last_nonpositive by done.
  rewrite <- head_reverse.
  destruct (reverse items) as [|x xs]; simpl; [done|].
  destruct (BaseAgent._valid_item _ _ x); simpl; [|done].
  by destruct (BaseAgent.is_call x).
Qed.

Lemma filter_Forall_id {A} (P : A → Prop) `{∀ x, Decision (P x)} (l : list A) :
  Forall P l → filter P l = l.
Proof.
  induction 1 as [|x l Hx _ IH]; [done|].
  by rewrite filter_cons, decide_True, IH.
Qed.

Lemma Forall_filter_holds {A} (P : A → Prop) `{∀ x, Decision (P x)} (l : list A) :
  Forall P (filter P l).
Proof. apply Forall_forall. intros x Hx. by apply list_elem_of_filter in Hx as [? _]. Qed.

(** The shape of a truncated chat context, for every bound. *)
Lemma truncate_shape (items : list ChatItem) (n : Z)
    (keep_system_message keep_function_call : bool) :
  let valid := BaseAgent._valid_item keep_system_message keep_function_call in
  let kept := BaseAgent._truncate_chat_ctx items n keep_system_message
                keep_function_call in
  kept `sublist_of` items
  ∧ Forall (fun item => valid item = true) kept
  ∧ (Z.of_nat (length kept) ≤ Z.max 1 n)%Z
  ∧ (∀ item, head kept = Some item → BaseAgent.is_call item = false).
Proof.
  simpl. destruct (Z.le_gt_cases 1 n) as [Hn|Hn].
  - rewrite truncate_positive by done.
    set (valid := BaseAgent._valid_item keep_system_message keep_function_call).
    set (l := last_n _ _).
    destruct (drop_leading_calls_suffix l) as [k Hk].
    assert (Hsub : l `sublist_of` items).
    { etrans; [apply sublist_drop | apply sublist_filter]. }
    assert (Hvalid : Forall (fun item => valid item = true) l).
    { apply Forall_drop, Forall_filter_holds. }
    assert (Hlen : (length l ≤ Z.to_nat n)%nat).
    { unfold l, last_n. rewrite length_drop. lia. }
    split_and!.
    + rewrite Hk. etrans; [apply sublist_drop | done].
    + rewrite Hk. by apply Forall_drop.
    + rewrite Hk, length_drop. lia.
    + apply drop_leading_calls_head.
  - rewrite truncate_nonpositive by lia.
    destruct (last items) as [item|] eqn:Hlast; simpl.
    + destruct (BaseAgent._valid_item _ _ item) eqn:Hv; simpl.
      * destruct (BaseAgent.is_call item) eqn:Hc; simpl.
        -- split_and!; [apply sublist_nil_l | constructor | lia | done].
        -- apply last_Some in Hlast as [l' ->].
           split_and!; [by apply sublist_inserts_l | by repeat constructor | lia |].
           by intros ? [= <-].
      * split_and!; [apply sublist_nil_l | constructor | lia | done].
    + split_and!; [apply sublist_nil_l | constructor | lia | done].
Qed.

(** A list that already has the shape of a truncated context is left as
    it is. *)
Lemma truncate_fixed (kept : list ChatItem) (n : Z)
    (keep_system_message keep_function_call : bool) :
  Forall (fun item => BaseAgent._valid_item keep_system_message
                        keep_function_call item = true) kept →
  (Z.of_nat (length kept) ≤ Z.max 1 n)%Z →
  (∀ item, head kept = Some item → BaseAgent.is_call item = false) →
  BaseAgent._truncate_chat_ctx kept n keep_system_message keep_function_call = kept.
Proof.
  intros Hvalid Hlen Hhead. destruct (Z.le_gt_cases 1 n) as [Hn|Hn].
  - rewrite truncate_positive by done.
    rewrite filter_Forall_id by done. unfold last_n.
    replace (length kept - Z.to_nat n) with 0 by lia.
    rewrite drop_0. by apply drop_leading_calls_id.
  - rewrite truncate_nonpositive by lia.
    destruct kept as [|x [|y kept]]; simpl in *; [done | | lia].
    apply Forall_cons in Hvalid as [-> _].
    by rewrite (Hhead x eq_refl).
Qed.

(** X15. For a bound of at least one, [_truncate_chat_ctx] returns the
    last [keep_last_n_messages] valid items of the list, in their order,
    without the function-call items that would stand at the front; when
    function calls are not kept, that is exactly the last
    [keep_last_n_messages] valid items. *)
Theorem truncation_keeps_last_valid_items
    (items : list ChatItem) (n : Z) (keep_system_message keep_function_call : bool) :
  (1 ≤ n)%Z →
  let valid := BaseAgent._valid_item keep_system_message keep_function_call in
  let last_valid := last_n (Z.to_nat n) (filter (fun i => valid i = true) items) in
  BaseAgent._truncate_chat_ctx items n keep_system_message keep_function_call
  = BaseAgent.drop_leading_calls last_valid
  ∧ (keep_function_call = false →
     BaseAgent._truncate_chat_ctx items n keep_system_message keep_function_call
     = last_valid).
Proof.
  intros Hn; simpl. split; [by apply truncate_positive|].
  intros ->. rewrite truncate_positive by done.
  apply drop_leading_calls_id. intros item Hhead.
  assert (Hin : item ∈ last_n (Z.to_nat n)
            (filter (fun i => BaseAgent._valid_item keep_system_message false i = true)
                    items)).
  { destruct (last_n _ _) as [|x l]; simplify_eq/=. apply list_elem_of_here. }
  unfold last_n in Hin. eapply elem_of_sublist in Hin; [|apply sublist_drop].
  apply list_elem_of_filter in Hin as [Hvalid _].
  unfold BaseAgent._valid_item in Hvalid. simpl in Hvalid.
  destruct (_ && _); [done|]. by destruct (BaseAgent.is_call item).
Qed.

(** X16. For a bound of zero or less, [_truncate_chat_ctx] does not
    return the empty list in general: the loop appends before it tests
    the bound, so the last item is returned when it is valid and is not a
    function-call item; otherwise nothing is, even if earlier items are
    valid. *)
Theorem truncation_with_no_room_keeps_last_item
    (items : list ChatItem) (n : Z) (keep_system_message keep_function_call : bool) :
  (n ≤ 0)%Z →
  BaseAgent._truncate_chat_ctx items n keep_system_message keep_function_call
  = match last items with
    | Some item =>
        if BaseAgent._valid_item keep_system_message keep_function_call item
           && negb (BaseAgent.is_call item)
        then [item] else []
    | None => []
    end.
Proof. apply truncate_nonpositive. Qed.

(** X17. Whatever the bound and the flags, the result of
    [_truncate_chat_ctx] is a selection of the given items in their
    order, made of valid items only, of at most
    [max(1, keep_last_n_messages)] items, and it does not begin with a
    function-call item. *)
Theorem truncation_result_shape
    (items : list ChatItem) (n : Z) (keep_system_message keep_function_call : bool) :
  let valid := BaseAgent._valid_item keep_system_message keep_function_call in
  let kept := BaseAgent._truncate_chat_ctx items n keep_system_message
                keep_function_call in
  kept `sublist_of` items
  ∧ Forall (fun item => valid item = true) kept
  ∧ (Z.of_nat (length kept) ≤ Z.max 1 n)%Z
  ∧ (∀ item, head kept = Some item → BaseAgent.is_call item = false).
Proof. apply truncate_shape. Qed.

(** X18. [_truncate_chat_ctx] is idempotent: truncating a truncated
    context with the same bound and flags changes nothing. *)
Theorem truncation_is_idempotent
    (items : list ChatItem) (n : Z) (keep_system_message keep_function_call : bool) :
  let truncate l :=
    BaseAgent._truncate_chat_ctx l n keep_system_message keep_function_call in
  truncate (truncate items) = truncate items.
Proof.
  simpl.
  destruct (truncate_shape items n keep_system_message keep_function_call)
    as (_ & Hvalid & Hlen & Hhead).
  by apply truncate_fixed.
Qed.

(** X19. What [on_enter] takes over from a previous agent: the agent's
    own items stay in front, unchanged; behind them come at most six
    items of the previous agent, in their order, none of them a system
    message and none with an id that one of the agent's own items has.
    Without a previous agent the items are the agent's own. *)
Theorem on_enter_inherits_recent_foreign_items
    (own prev_items : list ChatItem) :
  BaseAgent.on_enter_items own None = own
  ∧ ∃ added : list ChatItem,
      BaseAgent.on_enter_items own (Some prev_items) = own ++ added
      ∧ added `sublist_of` prev_items
      ∧ (length added ≤ 6)%nat
      ∧ Forall (fun item =>
                  (item_id item ∉ map item_id own)
                  ∧ ¬ (item_type item = "message" ∧ item_role item = "system"))
               added.
Proof.
  split; [done|]. unfold BaseAgent.on_enter_items.
  destruct (truncate_shape prev_items 6 false true) as (Hsub & Hvalid & Hlen & _).
  eexists. split_and!; [done | | |].
  - etrans; [apply sublist_filter | done].
  - etrans; [apply length_filter | lia].
  - apply Forall_forall. intros item Hin.
    apply list_elem_of_filter in Hin as [Hid Hin]. split.
    + intros Hown. apply Hid. by apply elem_of_list_to_set.
    + intros [Htype Hrole].
      apply (proj1 (Forall_forall _ _) Hvalid) in Hin.
      unfold BaseAgent._valid_item in Hin. rewrite Htype, Hrole in Hin. done.
Qed.

(** X20. If the agent's own items have distinct ids and so have the
    items of the previous agent, the items [on_enter] assembles have
    distinct ids. *)
Theorem on_enter_items_have_distinct_ids
    (own prev_items : list ChatItem) :
  NoDup (map item_id own) →
  NoDup (map item_id prev_items) →
  NoDup (map item_id (BaseAgent.on_enter_items own (Some prev_items))).
Proof.
  intros Hown Hprev. unfold BaseAgent.on_enter_items.
  destruct (truncate_shape prev_items 6 false true) as (Hsub & _).
  rewrite map_app. apply NoDup_app. split_and!; [done | |].
  - intros id Hin Hadded.
    apply list_elem_of_In, in_map_iff in Hadded as (item & <- & Hitem).
    apply list_elem_of_In, list_elem_of_filter in Hitem as [Hid _].
    apply Hid. by apply elem_of_list_to_set.
  - apply (sublist_NoDup _ (map item_id prev_items)); [done|].
    apply sublist_map. etrans; [apply sublist_filter | done].
Qed.

(** ** Booking and cancelling as a round trip *)

(** X21. Take a ledger in which the rows that pass the booking filter
    are clean (their [is_booked] cell reads ["False"] and their purpose
    and name are empty) and in which no row is already booked under the
    given name on the given date.  After a [store_appointment] that
    returned true, [cancel_appointment] for the same date and name
    returns true and every file is again exactly as before the booking. *)
Theorem booking_then_cancelling_restores_ledger
    (parse_dayfirst : string → option string)
    (csv date time purpose name formatted_date : string) (tbl : Table) (w w1 : World) :
  parse_dayfirst date = Some formatted_date →
  files w !! csv = Some tbl →
  Forall (fun r => book_match formatted_date time r →
                   r = mkRow (row_date r) (row_time r) "False" "" "") tbl →
  Forall (fun r => ¬ cancel_match formatted_date name r) tbl →
  utils.store_appointment parse_dayfirst csv date time purpose name w = (Returns true, w1) →
  let cancelled := utils.cancel_appointment parse_dayfirst csv date name w1 in
  cancelled.1 = Returns true ∧ files cancelled.2 = files w.
Proof.
  intros Hp Hf Hclean Hfresh Hrun; simpl.
  rewrite (store_appointment_run _ _ _ _ _ _ _ _ _ Hp Hf) in Hrun.
  destruct (existsb _ tbl) eqn:Hhit; [|done].
  injection Hrun as <-.
  erewrite cancel_appointment_run; [|done|by simpl; apply lookup_insert_eq].
  assert (Hround : ∀ r, r ∈ tbl →
            (book_match formatted_date time r →
             cancel_match formatted_date name
               (utils.book_row formatted_date time purpose name r).1)
            ∧ (utils.cancel_row formatted_date name
                 (utils.book_row formatted_date time purpose name r).1).1 = r).
  { intros r Hin.
    destruct (book_row_result formatted_date time purpose name r) as [Hyes Hno].
    destruct (decide (book_match formatted_date time r)) as [Hm|Hm].
    - assert (Hc : cancel_match formatted_date name
                     (utils.book_row formatted_date time purpose name r).1).
      { rewrite (Hyes Hm). destruct Hm as (Hd & _ & _).
        unfold cancel_match; simpl. split_and!; [done | done | reflexivity]. }
      split; [done|].
      rewrite (proj1 (cancel_row_result formatted_date name _) Hc).
      rewrite (Hyes Hm); simpl.
      symmetry. by apply (proj1 (Forall_forall _ _) Hclean r Hin).
    - split; [done|]. rewrite (Hno Hm).
      apply cancel_row_result.
      by apply (proj1 (Forall_forall _ _) Hfresh r Hin). }
  assert (Hex : existsb (fun r => (utils.cancel_row formatted_date name r).2)
                  (map (fun r => (utils.book_row formatted_date time purpose name r).1) tbl)
                = true).
  { apply existsb_book_row in Hhit. apply existsb_cancel_row.
    apply Exists_exists in Hhit as (r & Hin & Hm). apply Exists_exists.
    exists (utils.book_row formatted_date time purpose name r).1. split.
    - apply list_elem_of_In, in_map_iff. exists r. split; [done|].
      by apply list_elem_of_In.
    - by apply Hround. }
  rewrite Hex; simpl. split; [done|].
  rewrite insert_insert_eq, map_map.
  rewrite (map_ext_in _ id), map_id; [by apply insert_id|].
  intros r Hin. apply Hround. by apply list_elem_of_In.
Qed.

(** ** Closed examples for the further properties *)

(** Witness for X2: both spellings of a free cell are booked. *)
Lemma books_every_match_witness :
  let csv := "appointments.csv" in
  let w := ledger_at csv duplicate_slots in
  ∃ tbl' : Table,
    utils.store_appointment DateLib.parse_dayfirst csv "30-05-2025" "10:00"
      "dentist" "Alice" w
    = (Returns true,
       mkWorld (<[csv := tbl']> (files w)) (trace w ++ [EvRead csv; EvWrite csv]))
    ∧ Forall2 (fun r r' =>
                 (book_match "2025-05-30" "10:00" r →
                  r' = mkRow (row_date r) (row_time r) "True" "dentist" "Alice")
                 ∧ (¬ book_match "2025-05-30" "10:00" r → r' = r)) duplicate_slots tbl'.
Proof.
  apply (store_appointment_books_every_match DateLib.parse_dayfirst
           "appointments.csv" "30-05-2025" "10:00" "dentist" "Alice" "2025-05-30"
           duplicate_slots (ledger_at "appointments.csv" duplicate_slots)).
  - reflexivity.
  - reflexivity.
  - apply Exists_cons_hd. by split_and!.
Defined.

(** The table of the example above after the booking. *)
Example duplicate_slots_after_booking :
  let csv := "appointments.csv" in
  files (utils.store_appointment DateLib.parse_dayfirst csv "30-05-2025" "10:00"
           "dentist" "Alice" (ledger_at csv duplicate_slots)).2 !! csv
  = Some [mkRow "2025-05-30" "10:00" "True" "dentist" "Alice";
          mkRow "2025-05-30" "10:00" "True" "dentist" "Alice";
          mkRow "2025-05-30" "11:00" "True" "eye" "Bob"].
Proof. vm_compute. reflexivity. Qed.

(** Witness for X3: Alice's booking is cleared, the free row is kept. *)
Lemma clears_every_match_witness :
  let csv := "appointments.csv" in
  let w := ledger_at csv booked_and_free in
  ∃ tbl' : Table,
    utils.cancel_appointment DateLib.parse_dayfirst csv "30-05-2025" " ALICE " w
    = (Returns true,
       mkWorld (<[csv := tbl']> (files w)) (trace w ++ [EvRead csv; EvWrite csv]))
    ∧ Forall2 (fun r r' =>
                 (cancel_match "2025-05-30" " ALICE " r →
                  r' = mkRow (row_date r) (row_time r) "False" "" "")
                 ∧ (¬ cancel_match "2025-05-30" " ALICE " r → r' = r))
              booked_and_free tbl'.
Proof.
  apply (cancel_appointment_clears_every_match DateLib.parse_dayfirst
           "appointments.csv" "30-05-2025" " ALICE " "2025-05-30"
           booked_and_free (ledger_at "appointments.csv" booked_and_free)).
  - reflexivity.
  - reflexivity.
  - apply Exists_cons_hd. by split_and!.
Defined.

(** Witness for X5: the slot booked by Alice is refused to Bob. *)
Lemma second_booking_witness :
  let csv := "appointments.csv" in
  let w := ledger_at csv one_free_slot in
  let first := utils.store_appointment DateLib.parse_dayfirst csv
                 "30-05-2025" "10:00" "dentist" "Alice" w in
  let second := utils.store_appointment DateLib.parse_dayfirst csv
                  "30-05-2025" "10:00" "eye" "Bob" first.2 in
  first.1 = Returns true ∧ second.1 = Returns false ∧ files second.2 = files first.2.
Proof.
  split; [vm_compute; reflexivity|].
  apply (second_booking_is_refused DateLib.parse_dayfirst
           "appointments.csv" "30-05-2025" "10:00" "dentist" "Alice" "eye" "Bob"
           "2025-05-30" (ledger_at "appointments.csv" one_free_slot)).
  reflexivity.
Defined.

(** Witness for X6: booked as Alice, cancelled as alice. *)
Lemma booking_can_be_cancelled_witness :
  let csv := "appointments.csv" in
  let w := ledger_at csv one_free_slot in
  let first := utils.store_appointment DateLib.parse_dayfirst csv
                 "30-05-2025" "10:00" "dentist" "Alice" w in
  (utils.cancel_appointment DateLib.parse_dayfirst csv "30-05-2025" "alice " first.2).1
  = Returns true.
Proof.
  apply (booking_can_be_cancelled DateLib.parse_dayfirst
           "appointments.csv" "30-05-2025" "10:00" "dentist" "Alice" "alice "
           (ledger_at "appointments.csv" one_free_slot)).
  - vm_compute. reflexivity.
  - reflexivity.
Defined.

(** Witness for X7: Alice's 10:00 is listed again after her
    cancellation. *)
Lemma cancelled_slots_witness :
  let csv := "appointments.csv" in
  let w := ledger_at csv booked_and_free in
  let w1 := (utils.cancel_appointment DateLib.parse_dayfirst csv
               "30-05-2025" "alice" w).2 in
  recognised_for "2025-05-30" booked_and_free [Some "2025-05-30"; Some "2025-05-30"]
  ∧ ∃ slots l,
      (utils.get_free_slots DateLib.parse_dayfirst DateLib.to_datetime
         CsvLib.infer_time csv "30-05-2025" w1).1 = Returns slots
      ∧ utils.time_column CsvLib.infer_time booked_and_free !! 0 = Some l
      ∧ l ∈ slots
      ∧ ((∀ v, CsvLib.infer_time (map row_time booked_and_free) !! 0 ≠ Some (Some v)) →
         LStr "10:00" ∈ slots).
Proof.
  simpl.
  assert (Hrec : recognised_for "2025-05-30" booked_and_free
                   [Some "2025-05-30"; Some "2025-05-30"]) by (repeat constructor).
  split; [exact Hrec|].
  apply (cancelled_slots_are_listed DateLib.parse_dayfirst DateLib.to_datetime
           CsvLib.infer_time
           "appointments.csv" "30-05-2025" "alice" "2025-05-30"
           booked_and_free [Some "2025-05-30"; Some "2025-05-30"] 0
           (mkRow "2025-05-30" "10:00" "True" "dentist" "Alice")
           (ledger_at "appointments.csv" booked_and_free)).
  - reflexivity.
  - reflexivity.
  - vm_compute. reflexivity.
  - exact Hrec.
  - reflexivity.
  - by split_and!.
Defined.

(** The listing of the example above. *)
Example cancelled_slots_listing :
  let csv := "appointments.csv" in
  let w1 := (utils.cancel_appointment DateLib.parse_dayfirst csv
               "30-05-2025" "alice" (ledger_at csv booked_and_free)).2 in
  (utils.get_free_slots DateLib.parse_dayfirst DateLib.to_datetime
     CsvLib.infer_time csv "30-05-2025" w1).1
  = Returns [LStr "10:00"; LStr "11:00"].
Proof. vm_compute. reflexivity. Qed.

(** Witness for X8: on the one-slot ledger, 10:00 is listed and can be
    booked. *)
Lemma listed_iff_bookable_witness :
  let csv := "appointments.csv" in
  let w := ledger_at csv one_free_slot in
  let booked := (utils.store_appointment DateLib.parse_dayfirst csv "30-05-2025" "10:00"
                   "dentist" "Alice" w).1 in
  faithful_for "2025-05-30" one_free_slot [Some "2025-05-30"]
  ∧ ∃ slots,
      (utils.get_free_slots DateLib.parse_dayfirst DateLib.to_datetime
         CsvLib.infer_time csv "30-05-2025" w).1 = Returns slots
      ∧ (LStr "10:00" ∈ slots → booked = Returns true)
      ∧ (booked = Returns true →
         ∃ i row l,
           one_free_slot !! i = Some row ∧ book_match "2025-05-30" "10:00" row
           ∧ utils.time_column CsvLib.infer_time one_free_slot !! i = Some l
           ∧ l ∈ slots)
      ∧ ((∀ i v, CsvLib.infer_time (map row_time one_free_slot) !! i ≠ Some (Some v)) →
         (LStr "10:00" ∈ slots ↔ booked = Returns true)).
Proof.
  simpl.
  assert (Hfaith : faithful_for "2025-05-30" one_free_slot [Some "2025-05-30"]).
  { constructor; [by split | constructor]. }
  split; [exact Hfaith|].
  apply (listed_iff_bookable DateLib.parse_dayfirst DateLib.to_datetime CsvLib.infer_time
           "appointments.csv" "30-05-2025" "10:00" "dentist" "Alice" "2025-05-30"
           one_free_slot [Some "2025-05-30"]
           (ledger_at "appointments.csv" one_free_slot)).
  - reflexivity.
  - reflexivity.
  - vm_compute. reflexivity.
  - exact Hfaith.
Defined.

(** On the ledger with the digit-only label, the slot can be booked as
    ["1000"] and is listed as the integer 1000, not as that text. *)
Example numeric_label_listed_and_bookable :
  let csv := "appointments.csv" in
  let w := ledger_at csv numeric_label in
  (utils.get_free_slots DateLib.parse_dayfirst DateLib.to_datetime
     CsvLib.infer_time csv "30-05-2025" w).1 = Returns [LVal (SInt 1000)]
  ∧ (utils.store_appointment DateLib.parse_dayfirst csv "30-05-2025" "1000"
       "dentist" "Alice" w).1 = Returns true.
Proof. vm_compute. by split. Qed.

(** Witness for X10: the raw text stays selected and blocks the
    selection. *)
Lemma unparseable_date_blocks_witness :
  let w := ledger_at "appointments.csv" one_free_slot in
  let listed := AppointmentAgent.get_available_slots DateLib.parse_dayfirst
                  DateLib.to_datetime CsvLib.infer_time default_userdata "not-a-date" w in
  let userdata1 := set_selected_date default_userdata "not-a-date" in
  listed.1 = Returns ([], userdata1)
  ∧ selected_date userdata1 = Some "not-a-date"
  ∧ (AppointmentAgent.select_slot DateLib.parse_dayfirst DateLib.to_datetime
       CsvLib.infer_time userdata1 "10:00" listed.2).1
    = Returns ("Error verifying slots", userdata1).
Proof.
  split; [vm_compute; reflexivity|].
  apply (unparseable_date_blocks_slot_selection DateLib.parse_dayfirst DateLib.to_datetime
           CsvLib.infer_time default_userdata (set_selected_date default_userdata "not-a-date")
           "not-a-date" "10:00" []
           (ledger_at "appointments.csv" one_free_slot)).
  - reflexivity.
  - vm_compute. reflexivity.
Defined.

(** Witness for X11: 10:00 is listed, then selected. *)
Lemma listed_slot_can_be_selected_witness :
  let w := ledger_at "appointments.csv" one_free_slot in
  let listed := AppointmentAgent.get_available_slots DateLib.parse_dayfirst
                  DateLib.to_datetime CsvLib.infer_time default_userdata "30-05-2025" w in
  let userdata1 := set_selected_date default_userdata "30-05-2025" in
  listed.1 = Returns ([LStr "10:00"], userdata1)
  ∧ (AppointmentAgent.select_slot DateLib.parse_dayfirst DateLib.to_datetime
       CsvLib.infer_time userdata1 "10:00" listed.2).1
    = Returns ("10:00", with_selected_time userdata1 "10:00").
Proof.
  split; [vm_compute; reflexivity|].
  apply (listed_slot_can_be_selected DateLib.parse_dayfirst DateLib.to_datetime
           CsvLib.infer_time
           default_userdata (set_selected_date default_userdata "30-05-2025")
           "30-05-2025" "10:00" [LStr "10:00"]
           (ledger_at "appointments.csv" one_free_slot)).
  - vm_compute. reflexivity.
  - apply list_elem_of_here.
Defined.

(** Witness for X12: both tools raise on a text that is no date. *)
Lemma tools_propagate_parse_error_witness :
  let w := ledger_at "appointments.csv" one_free_slot in
  let error := ValueError "Unable to parse the date: not-a-date" in
  AppointmentAgent.appointment_saved DateLib.parse_dayfirst default_userdata
    "not-a-date" "10:00" "dentist" "Alice" w = (Raises error, w)
  ∧ AppointmentAgent.cancel_appointment DateLib.parse_dayfirst default_userdata
      "Alice" "not-a-date" w = (Raises error, w).
Proof.
  apply (booking_and_cancel_tools_propagate_parse_error DateLib.parse_dayfirst
           default_userdata "not-a-date" "10:00" "dentist" "Alice"
           (ledger_at "appointments.csv" one_free_slot)).
  reflexivity.
Defined.

(** Witness for X21: booking and cancelling the one free slot. *)
Lemma round_trip_witness :
  let csv := "appointments.csv" in
  let w := ledger_at csv one_free_slot in
  let booked := utils.store_appointment DateLib.parse_dayfirst csv
                  "30-05-2025" "10:00" "dentist" "Alice" w in
  let cancelled := utils.cancel_appointment DateLib.parse_dayfirst csv
                     "30-05-2025" "Alice" booked.2 in
  booked.1 = Returns true ∧ cancelled.1 = Returns true ∧ files cancelled.2 = files w.
Proof.
  split; [vm_compute; reflexivity|].
  apply (booking_then_cancelling_restores_ledger DateLib.parse_dayfirst
           "appointments.csv" "30-05-2025" "10:00" "dentist" "Alice" "2025-05-30"
           one_free_slot (ledger_at "appointments.csv" one_free_slot)).
  - reflexivity.
  - reflexivity.
  - by repeat constructor.
  - repeat constructor. intros (_ & _ & Hb). vm_compute in Hb. discriminate.
  - vm_compute. reflexivity.
Defined.

(** A chat context with a system message, a tool exchange and two user
    messages. *)
Example truncation_of_a_tool_exchange :
  let items := [system_message "s1"; user_message "m1"; function_call "c1";
                function_call_output "o1"; user_message "m2"] in
  BaseAgent._truncate_chat_ctx items 3 false true = [user_message "m2"]
  ∧ BaseAgent._truncate_chat_ctx items 3 false false
    = [user_message "m1"; user_message "m2"]
  ∧ BaseAgent._truncate_chat_ctx items 0 false false = [user_message "m2"].
Proof. vm_compute. by split_and!. Qed.

(** Witness for X15: the last three valid items are a tool exchange and a
    message, and the exchange is dropped from the front. *)
Lemma truncation_keeps_last_witness :
  let items := [system_message "s1"; user_message "m1"; function_call "c1";
                function_call_output "o1"; user_message "m2"] in
  let last_valid :=
    last_n 3 (filter (fun i => BaseAgent._valid_item false true i = true) items) in
  last_valid = [function_call "c1"; function_call_output "o1"; user_message "m2"]
  ∧ BaseAgent._truncate_chat_ctx items 3 false true
    = BaseAgent.drop_leading_calls last_valid.
Proof.
  split; [vm_compute; reflexivity|].
  apply (truncation_keeps_last_valid_items
           [system_message "s1"; user_message "m1"; function_call "c1";
            function_call_output "o1"; user_message "m2"] 3 false true).
  lia.
Defined.

(** Witness for X16: a bound of zero still yields the last message. *)
Lemma truncation_with_no_room_witness :
  BaseAgent._truncate_chat_ctx [user_message "m1"; user_message "m2"] 0 false false
  = [user_message "m2"].
Proof.
  apply (truncation_with_no_room_keeps_last_item
           [user_message "m1"; user_message "m2"] 0 false false).
  lia.
Defined.

(** Witness for X20: one of the two previous items is already there. *)
Lemma on_enter_distinct_ids_witness :
  let own := [system_message "a"; user_message "b"] in
  let prev_items := [user_message "b"; user_message "c"] in
  BaseAgent.on_enter_items own (Some prev_items)
  = [system_message "a"; user_message "b"; user_message "c"]
  ∧ NoDup (map item_id (BaseAgent.on_enter_items own (Some prev_items))).
Proof.
  split; [vm_compute; reflexivity|].
  apply (on_enter_items_have_distinct_ids
           [system_message "a"; user_message "b"]
           [user_message "b"; user_message "c"]).
  - by apply (bool_decide_unpack _).
  - by apply (bool_decide_unpack _).
Defined.

(** A whole conversation through the tools: list, select, give purpose
    and name, save, then cancel. *)
Example conversation :
  let parse := DateLib.parse_dayfirst in
  let calls := [GetAvailableSlots "30-05-2025"; SelectSlot "10:00";
                SetPurpose "dentist"; SetNameAndConfirm "Alice";
                AppointmentSaved "30-05-2025" "10:00" "dentist" "Alice"] in
  let w0 := ledger_at "appointments.csv" one_free_slot in
  let s1 := run_session parse DateLib.to_datetime CsvLib.infer_time calls
              (default_userdata, w0) in
  let s2 := run_session parse DateLib.to_datetime CsvLib.infer_time
              [CancelAppointment "alice" "30-05-2025"] s1 in
  s1.1 = mkUserData "appointments.csv" (Some "30-05-2025") (Some "10:00")
           (Some "dentist") (Some "Alice") true
  ∧ files s1.2 !! "appointments.csv"
    = Some [mkRow "2025-05-30" "10:00" "True" "dentist" "Alice"]
  ∧ last (trace s1.2) = Some (EvSay "The appointment has been saved.")
  ∧ files s2.2 !! "appointments.csv" = Some one_free_slot
  ∧ last (trace s2.2) = Some (EvSay "Your appointment has been canceled.").
Proof. vm_compute. by split_and!. Qed.

(** A session on the ledger with the digit-only label: the listing tool
    raises, and the session is left with the date selected. *)
Example session_after_failed_listing :
  let w0 := ledger_at "appointments.csv" numeric_label in
  let s1 := run_session DateLib.parse_dayfirst DateLib.to_datetime CsvLib.infer_time
              [GetAvailableSlots "30-05-2025"] (default_userdata, w0) in
  s1.1 = set_selected_date default_userdata "30-05-2025"
  ∧ files s1.2 = files w0
  ∧ trace s1.2 = [EvRead "appointments.csv"].
Proof. vm_compute. by split_and!. Qed.
